(** * HelloVulkan (ray_tracing__advance): resource binding and frame accumulation

    A shallow embedding of [hello_vulkan.cpp].  The members of the
    [HelloVulkan] class become a record, its methods become computations in
    a small state-and-trace monad: the state is the record, the trace is the
    sequence of calls that leave the class (Vulkan entry points, the
    allocator, the ray tracer, the offscreen pass).  Logging, debug names
    and debug labels are left out of the trace, and so are the arguments
    that are passed through untouched (command buffer, device, clear
    colour, viewport size). *)

From Stdlib Require Import String ZArith List Lia Bool Sorted.
From Stdlib Require Import Strings.Byte.
Import ListNotations.
Open Scope Z_scope.

(** ** Machine integers *)

Module Int.

Definition INT_MAX : Z := 2147483647.
Definition INT_MIN : Z := -2147483648.
Definition UINT32_MOD : Z := 4294967296.

(** [static_cast<uint32_t>(n)] of a [size_t]. *)
Definition to_uint32 (n : Z) : Z := n mod UINT32_MOD.

(** Unsigned 32-bit addition, as in [nbObj + 1]. *)
Definition uadd32 (a b : Z) : Z := (a + b) mod UINT32_MOD.

(** Two's complement reduction of a value to [int].  Signed overflow is
    undefined in C++: the wrap-around only makes [incr] total, and the
    properties of the frame counter are stated below [INT_MAX], where
    [x++] is [x + 1]. *)
Definition wrap (n : Z) : Z := (n - INT_MIN) mod UINT32_MOD + INT_MIN.

(** [x++] on an [int]. *)
Definition incr (x : Z) : Z := wrap (x + 1).

Definition in_range (x : Z) : Prop := INT_MIN <= x <= INT_MAX.

End Int.

(** ** Single-precision floats, by their object representation

    A [float] is kept as the four bytes it occupies (lowest address first,
    little-endian), which is what [memcmp] reads.  Comparison with [!=]
    follows IEEE 754 on the decoded fields; arithmetic is not interpreted. *)

Record float32 : Type := F32 { byte0 : byte; byte1 : byte; byte2 : byte; byte3 : byte }.

Definition byte_val (b : byte) : Z := Z.of_N (Byte.to_N b).

Definition f32_bytes (f : float32) : list byte :=
  [byte0 f; byte1 f; byte2 f; byte3 f].

Definition f32_bits (f : float32) : Z :=
  Z.lor (Z.lor (byte_val (byte0 f)) (Z.shiftl (byte_val (byte1 f)) 8))
        (Z.lor (Z.shiftl (byte_val (byte2 f)) 16) (Z.shiftl (byte_val (byte3 f)) 24)).

Definition f32_exponent (f : float32) : Z := Z.land (Z.shiftr (f32_bits f) 23) 255.
Definition f32_mantissa (f : float32) : Z := Z.land (f32_bits f) 8388607.

Definition f32_isnan (f : float32) : bool :=
  (f32_exponent f =? 255) && negb (f32_mantissa f =? 0).

Definition f32_iszero (f : float32) : bool :=
  Z.land (f32_bits f) 2147483647 =? 0.

(** [a == b] on floats: false as soon as one side is a NaN, true for the two
    zeros, and otherwise equality of the encodings. *)
Definition f32_eq (a b : float32) : bool :=
  negb (f32_isnan a) && negb (f32_isnan b)
  && ((f32_bits a =? f32_bits b) || (f32_iszero a && f32_iszero b)).

(** [a != b] on floats. *)
Definition f32_ne (a b : float32) : bool := negb (f32_eq a b).

Definition f32_zero : float32 := F32 x00 x00 x00 x00.
Definition f32_one : float32 := F32 x00 x00 x80 x3f.
(** [2.2f] *)
Definition f32_2_2 : float32 := F32 xcd xcc x0c x40.
(** [60.0f] *)
Definition f32_60 : float32 := F32 x00 x00 x70 x42.
(** A quiet NaN. *)
Definition f32_qnan : float32 := F32 x00 x00 xc0 x7f.

Record vec3f : Type := Vec3 { vx : float32; vy : float32; vz : float32 }.

(** [nvmath::mat4f]: sixteen floats, column after column, starting at [a00]. *)
Record mat4f : Type := Mat4 {
  a00 : float32; a10 : float32; a20 : float32; a30 : float32;
  a01 : float32; a11 : float32; a21 : float32; a31 : float32;
  a02 : float32; a12 : float32; a22 : float32; a32 : float32;
  a03 : float32; a13 : float32; a23 : float32; a33 : float32 }.

(** The bytes of the object starting at [&m.a00]. *)
Definition mat4f_bytes (m : mat4f) : list byte :=
  f32_bytes (a00 m) ++ f32_bytes (a10 m) ++ f32_bytes (a20 m) ++ f32_bytes (a30 m) ++
  f32_bytes (a01 m) ++ f32_bytes (a11 m) ++ f32_bytes (a21 m) ++ f32_bytes (a31 m) ++
  f32_bytes (a02 m) ++ f32_bytes (a12 m) ++ f32_bytes (a22 m) ++ f32_bytes (a32 m) ++
  f32_bytes (a03 m) ++ f32_bytes (a13 m) ++ f32_bytes (a23 m) ++ f32_bytes (a33 m).

(** [sizeof(nvmath::mat4f)] *)
Definition sizeof_mat4f : nat := 64.

Definition mat4f_zero : mat4f :=
  Mat4 f32_zero f32_zero f32_zero f32_zero f32_zero f32_zero f32_zero f32_zero
       f32_zero f32_zero f32_zero f32_zero f32_zero f32_zero f32_zero f32_zero.

Definition mat4f_identity : mat4f :=
  Mat4 f32_one f32_zero f32_zero f32_zero f32_zero f32_one f32_zero f32_zero
       f32_zero f32_zero f32_one f32_zero f32_zero f32_zero f32_zero f32_one.

(** [memcmp(p, q, n)]: the difference of the first pair of bytes that differ
    among the first [n], 0 when there is none.  Both arguments are always
    whole [mat4f] objects here, so the reads stay inside them. *)
Fixpoint memcmp (p q : list byte) (n : nat) : Z :=
  match n with
  | O => 0
  | S n' =>
      match p, q with
      | a :: p', b :: q' =>
          if Byte.eqb a b then memcmp p' q' n' else byte_val a - byte_val b
      | _, _ => 0
      end
  end.


(** ** Vulkan constants used by the class *)

Module Vk.

Definition WHOLE_SIZE : Z := 18446744073709551615.

Definition BUFFER_USAGE_STORAGE_BUFFER_BIT : Z := 0x20.
Definition BUFFER_USAGE_INDEX_BUFFER_BIT : Z := 0x40.
Definition BUFFER_USAGE_VERTEX_BUFFER_BIT : Z := 0x80.
Definition BUFFER_USAGE_SHADER_BINDING_TABLE_BIT_KHR : Z := 0x400.
Definition BUFFER_USAGE_SHADER_DEVICE_ADDRESS_BIT : Z := 0x20000.
Definition BUFFER_USAGE_ACCELERATION_STRUCTURE_BUILD_INPUT_READ_ONLY_BIT_KHR : Z := 0x80000.

Definition SHADER_STAGE_VERTEX_BIT : Z := 0x1.
Definition SHADER_STAGE_FRAGMENT_BIT : Z := 0x10.
Definition SHADER_STAGE_RAYGEN_BIT_KHR : Z := 0x100.
Definition SHADER_STAGE_ANY_HIT_BIT_KHR : Z := 0x200.
Definition SHADER_STAGE_CLOSEST_HIT_BIT_KHR : Z := 0x400.
Definition SHADER_STAGE_INTERSECTION_BIT_KHR : Z := 0x1000.

Inductive DescriptorType : Type :=
| DESCRIPTOR_TYPE_COMBINED_IMAGE_SAMPLER
| DESCRIPTOR_TYPE_UNIFORM_BUFFER
| DESCRIPTOR_TYPE_STORAGE_BUFFER.

End Vk.

(** ** Data model *)

(** Vulkan handles ([VkBuffer], [VkImage], [VkPipeline], ...); 0 is
    [VK_NULL_HANDLE]. *)
Definition Handle : Type := nat.

(** [nvvk::Buffer] *)
Record Buffer : Type := mkBuffer { buffer : Handle }.

(** [nvvk::Texture].  Besides the handles, the record keeps what was uploaded
    into the image: its extent and its bytes. *)
Record Texture : Type := mkTexture {
  image : Handle;
  descriptor : Handle;
  extent_width : Z;
  extent_height : Z;
  texels : list byte }.

(** [ObjModel] *)
Record ObjModel : Type := mkObjModel {
  nbIndices : Z;
  nbVertices : Z;
  vertexBuffer : Buffer;
  indexBuffer : Buffer;
  matColorBuffer : Buffer;
  matIndexBuffer : Buffer }.

(** [ObjInstance] *)
Record ObjInstance : Type := mkObjInstance {
  objIndex : Z;
  txtOffset : Z;
  transform : mat4f;
  transformIT : mat4f }.

Inductive EObjType : Type := eSphere | eCube.

(** [ObjImplicit] *)
Record ObjImplicit : Type := mkObjImplicit {
  minimum : vec3f;
  maximum : vec3f;
  objType : EObjType;
  matId : Z }.

(** [MaterialObj], with the fields this file reads and writes. *)
Record MaterialObj : Type := mkMaterialObj {
  ambient : vec3f;
  diffuse : vec3f;
  specular : vec3f }.

(** [VertexObj], with the attributes declared to the graphics pipeline. *)
Record VertexObj : Type := mkVertexObj {
  pos : vec3f;
  nrm : vec3f;
  color : vec3f;
  texCoord : float32 * float32 }.

(** [ImplInst], the type of [m_implObjects]. *)
Record ImplInst : Type := mkImplInst {
  objImpl : list ObjImplicit;
  implMat : list MaterialObj;
  implBuf : Buffer;
  implMatBuf : Buffer }.

(** [ObjPushConstants], with the two members this file assigns. *)
Record ObjPushConstants : Type := mkObjPushConstants {
  instanceId : Z;
  frame : Z }.

(** What [ObjLoader::loadModel] leaves in the loader. *)
Module ObjLoader.
Record t : Type := mk {
  m_vertices : list VertexObj;
  m_indices : list Z;
  m_materials : list MaterialObj;
  m_matIndx : list Z;
  m_textures : list string }.
End ObjLoader.

(** What [stbi_load] returns on success. *)
Record StbImage : Type := mkStbImage {
  texWidth : Z;
  texHeight : Z;
  stbi_pixels : list byte }.

(** The camera manipulator singleton, as polled during one call. *)
Record CameraManipulator : Type := mkCamera {
  getMatrix : mat4f;
  getFov : float32 }.

(** The two function-local statics of [updateFrame]. *)
Record RefCamera : Type := mkRefCamera {
  refCamMatrix : mat4f;
  refFov : float32 }.

(** One binding of [m_descSetLayoutBind]. *)
Record LayoutBinding : Type := mkLayoutBinding {
  binding : Z;
  descriptorType : Vk.DescriptorType;
  descriptorCount : Z;
  stageFlags : Z }.

Inductive DescriptorInfo : Type :=
| DescriptorBufferInfo (buf : Handle) (offset range : Z)
| DescriptorImageInfo (desc : Handle).

(** [VkWriteDescriptorSet]: [pInfo] is the array the write points to, with
    the length it has in the caller; [writeCount] is the [descriptorCount]
    field of the write. *)
Record WriteDescriptorSet : Type := mkWrite {
  dstSet : Handle;
  dstBinding : Z;
  writeCount : Z;
  pInfo : list DescriptorInfo }.

(** Calls that leave the class, in the order they are made.  [Enter_resetFrame]
    marks an entry into [resetFrame]. *)
Inductive Call : Type :=
| AllocCreateBuffer (b : Handle) (elements : nat) (usage : Z)
| AllocCreateImage (i : Handle) (width height : Z) (data : list byte) (mipmaps : bool)
| AllocCreateTexture (i d : Handle)
| CmdBarrierImageLayout (i : Handle)
| CmdGenerateMipmaps (i : Handle)
| SubmitAndWait
| FinalizeAndReleaseStaging
| CreateLayout (l : Handle)
| CreatePool (p : Handle)
| AllocateDescriptorSet (d : Handle)
| VkUpdateDescriptorSets (writes : list WriteDescriptorSet)
| VkDestroyPipeline (p : Handle)
| VkDestroyPipelineLayout (l : Handle)
| VkDestroyDescriptorPool (p : Handle)
| VkDestroyDescriptorSetLayout (l : Handle)
| AllocDestroyBuffer (b : Handle)
| AllocDestroyTexture (i : Handle)
| OffscreenDestroy
| OffscreenCreateFramebuffer
| OffscreenUpdateDescriptorSet
| RaytracerDestroy
| RaytracerUpdateRtDescriptorSet
| AllocDeinit
| SetViewport
| VkCmdBindPipeline (p : Handle)
| VkCmdBindDescriptorSets (l d : Handle)
| VkCmdPushConstants (l : Handle) (pc : ObjPushConstants)
| VkCmdBindVertexBuffers (b : Handle)
| VkCmdBindIndexBuffer (b : Handle)
| VkCmdDrawIndexed (indexCount : Z)
| RaytracerRaytrace (d : Handle) (pc : ObjPushConstants)
| Enter_resetFrame.

(** The members of [HelloVulkan] this file uses, with [m_alloc] reduced to
    the allocator's next free handle, and the two function-local statics of
    [updateFrame] ([None] until its first call; they belong to the process,
    which runs one [HelloVulkan]). *)
Record HelloVulkan : Type := mkHelloVulkan {
  m_objModel : list ObjModel;
  m_objInstance : list ObjInstance;
  m_textures : list Texture;
  m_implObjects : ImplInst;
  m_cameraMat : Buffer;
  m_sceneDesc : Buffer;
  m_descSetLayoutBind : list LayoutBinding;
  m_descPool : Handle;
  m_descSetLayout : Handle;
  m_descSet : Handle;
  m_pipelineLayout : Handle;
  m_graphicsPipeline : Handle;
  m_pushConstants : ObjPushConstants;
  m_maxFrames : Z;
  m_alloc : Handle;
  updateFrame_statics : option RefCamera }.

Definition set_objModel (v : list ObjModel) (s : HelloVulkan) : HelloVulkan :=
  mkHelloVulkan v (m_objInstance s) (m_textures s) (m_implObjects s) (m_cameraMat s)
    (m_sceneDesc s) (m_descSetLayoutBind s) (m_descPool s) (m_descSetLayout s) (m_descSet s)
    (m_pipelineLayout s) (m_graphicsPipeline s) (m_pushConstants s) (m_maxFrames s)
    (m_alloc s) (updateFrame_statics s).

Definition set_objInstance (v : list ObjInstance) (s : HelloVulkan) : HelloVulkan :=
  mkHelloVulkan (m_objModel s) v (m_textures s) (m_implObjects s) (m_cameraMat s)
    (m_sceneDesc s) (m_descSetLayoutBind s) (m_descPool s) (m_descSetLayout s) (m_descSet s)
    (m_pipelineLayout s) (m_graphicsPipeline s) (m_pushConstants s) (m_maxFrames s)
    (m_alloc s) (updateFrame_statics s).

Definition set_textures (v : list Texture) (s : HelloVulkan) : HelloVulkan :=
  mkHelloVulkan (m_objModel s) (m_objInstance s) v (m_implObjects s) (m_cameraMat s)
    (m_sceneDesc s) (m_descSetLayoutBind s) (m_descPool s) (m_descSetLayout s) (m_descSet s)
    (m_pipelineLayout s) (m_graphicsPipeline s) (m_pushConstants s) (m_maxFrames s)
    (m_alloc s) (updateFrame_statics s).

Definition set_implObjects (v : ImplInst) (s : HelloVulkan) : HelloVulkan :=
  mkHelloVulkan (m_objModel s) (m_objInstance s) (m_textures s) v (m_cameraMat s)
    (m_sceneDesc s) (m_descSetLayoutBind s) (m_descPool s) (m_descSetLayout s) (m_descSet s)
    (m_pipelineLayout s) (m_graphicsPipeline s) (m_pushConstants s) (m_maxFrames s)
    (m_alloc s) (updateFrame_statics s).

Definition set_descSetLayoutBind (v : list LayoutBinding) (s : HelloVulkan) : HelloVulkan :=
  mkHelloVulkan (m_objModel s) (m_objInstance s) (m_textures s) (m_implObjects s) (m_cameraMat s)
    (m_sceneDesc s) v (m_descPool s) (m_descSetLayout s) (m_descSet s)
    (m_pipelineLayout s) (m_graphicsPipeline s) (m_pushConstants s) (m_maxFrames s)
    (m_alloc s) (updateFrame_statics s).

Definition set_descPool (v : Handle) (s : HelloVulkan) : HelloVulkan :=
  mkHelloVulkan (m_objModel s) (m_objInstance s) (m_textures s) (m_implObjects s) (m_cameraMat s)
    (m_sceneDesc s) (m_descSetLayoutBind s) v (m_descSetLayout s) (m_descSet s)
    (m_pipelineLayout s) (m_graphicsPipeline s) (m_pushConstants s) (m_maxFrames s)
    (m_alloc s) (updateFrame_statics s).

Definition set_descSetLayout (v : Handle) (s : HelloVulkan) : HelloVulkan :=
  mkHelloVulkan (m_objModel s) (m_objInstance s) (m_textures s) (m_implObjects s) (m_cameraMat s)
    (m_sceneDesc s) (m_descSetLayoutBind s) (m_descPool s) v (m_descSet s)
    (m_pipelineLayout s) (m_graphicsPipeline s) (m_pushConstants s) (m_maxFrames s)
    (m_alloc s) (updateFrame_statics s).

Definition set_descSet (v : Handle) (s : HelloVulkan) : HelloVulkan :=
  mkHelloVulkan (m_objModel s) (m_objInstance s) (m_textures s) (m_implObjects s) (m_cameraMat s)
    (m_sceneDesc s) (m_descSetLayoutBind s) (m_descPool s) (m_descSetLayout s) v
    (m_pipelineLayout s) (m_graphicsPipeline s) (m_pushConstants s) (m_maxFrames s)
    (m_alloc s) (updateFrame_statics s).

Definition set_pushConstants (v : ObjPushConstants) (s : HelloVulkan) : HelloVulkan :=
  mkHelloVulkan (m_objModel s) (m_objInstance s) (m_textures s) (m_implObjects s) (m_cameraMat s)
    (m_sceneDesc s) (m_descSetLayoutBind s) (m_descPool s) (m_descSetLayout s) (m_descSet s)
    (m_pipelineLayout s) (m_graphicsPipeline s) v (m_maxFrames s)
    (m_alloc s) (updateFrame_statics s).

Definition set_alloc (v : Handle) (s : HelloVulkan) : HelloVulkan :=
  mkHelloVulkan (m_objModel s) (m_objInstance s) (m_textures s) (m_implObjects s) (m_cameraMat s)
    (m_sceneDesc s) (m_descSetLayoutBind s) (m_descPool s) (m_descSetLayout s) (m_descSet s)
    (m_pipelineLayout s) (m_graphicsPipeline s) (m_pushConstants s) (m_maxFrames s)
    v (updateFrame_statics s).

Definition set_statics (v : option RefCamera) (s : HelloVulkan) : HelloVulkan :=
  mkHelloVulkan (m_objModel s) (m_objInstance s) (m_textures s) (m_implObjects s) (m_cameraMat s)
    (m_sceneDesc s) (m_descSetLayoutBind s) (m_descPool s) (m_descSetLayout s) (m_descSet s)
    (m_pipelineLayout s) (m_graphicsPipeline s) (m_pushConstants s) (m_maxFrames s)
    (m_alloc s) v.

(** ** The state-and-trace monad *)

Definition M (A : Type) : Type := HelloVulkan -> A * HelloVulkan * list Call.

Definition ret {A : Type} (a : A) : M A := fun s => (a, s, []).

Definition bind {A B : Type} (m : M A) (k : A -> M B) : M B :=
  fun s =>
    let '(a, s1, t1) := m s in
    let '(b, s2, t2) := k a s1 in
    (b, s2, t1 ++ t2).

Declare Scope hv_scope.
Delimit Scope hv_scope with hv.
Notation "x <- m ;; k" := (bind m (fun x => k))
  (at level 61, m at next level, right associativity) : hv_scope.
Notation "m ;; k" := (bind m (fun _ => k))
  (at level 61, right associativity) : hv_scope.
Open Scope hv_scope.

Definition gets {A : Type} (f : HelloVulkan -> A) : M A := fun s => (f s, s, []).
Definition modify (f : HelloVulkan -> HelloVulkan) : M unit := fun s => (tt, f s, []).
Definition call (c : Call) : M unit := fun s => (tt, s, [c]).

Definition exec {A : Type} (m : M A) (s : HelloVulkan) : HelloVulkan := snd (fst (m s)).
Definition trace {A : Type} (m : M A) (s : HelloVulkan) : list Call := snd (m s).
Definition result {A : Type} (m : M A) (s : HelloVulkan) : A := fst (fst (m s)).

(** A range-based [for] over a vector. *)
Fixpoint for_each {A : Type} (l : list A) (body : A -> M unit) : M unit :=
  match l with
  | [] => ret tt
  | x :: l' => body x ;; for_each l' body
  end.

(** [vector::size()] *)
Definition size {A : Type} (l : list A) : Z := Z.of_nat (length l).

(** ** Collaborators and missing declarations *)

(** The functions of [nvmath] the class calls.  Their floating-point
    arithmetic is not interpreted. *)
Class Nvmath : Type := {
  invert : mat4f -> mat4f;
  transpose : mat4f -> mat4f;
  pow : vec3f -> float32 -> vec3f;
  f32_add : float32 -> float32 -> float32;
  f32_sub : float32 -> float32 -> float32;
  (** what [nvmath::mat4f]'s default constructor leaves in a static object *)
  mat4f_default : mat4f }.

(** The file system as seen through the mesh loader, the search paths and
    the image decoder. *)
Class Assets : Type := {
  ObjLoader_loadModel : string -> ObjLoader.t;
  findFile : string -> string;
  stbi_load : string -> option StbImage }.

(** Default member initialisers of [hello_vulkan.h] and [obj_loader.h]: the
    values of [ObjImplicit{}] and [MaterialObj{}]. *)
Class Defaults : Type := {
  ObjImplicit_default : ObjImplicit;
  MaterialObj_default : MaterialObj }.

(** ** The methods of [HelloVulkan] *)

Section Methods.

Context {nv : Nvmath} {assets : Assets} {dflt : Defaults}.

(** The allocator hands out handles that were never used before. *)
Definition fresh : M Handle :=
  fun s => (m_alloc s, set_alloc (S (m_alloc s)) s, []).

(** [m_alloc.createBuffer(cmdBuf, data, usage)] *)
Definition alloc_createBuffer {A : Type} (data : list A) (usage : Z) : M Buffer :=
  b <- fresh ;;
  call (AllocCreateBuffer b (length data) usage) ;;
  ret (mkBuffer b).

(** The first [n] bytes behind a pointer. *)
Definition read_bytes (n : Z) (p : list byte) : list byte := firstn (Z.to_nat n) p.

Definition push_texture (t : Texture) : M unit :=
  modify (fun s => set_textures (m_textures s ++ [t]) s).

(** The body of the loop of [createTextureImages]. *)
Definition upload_texture_file (texture : string) : M unit :=
  let txtFile := findFile (String.append "media/textures/" texture) in
  let loaded := stbi_load txtFile in
  let color := [xff; x00; xff; xff] in
  let '(texWidth, texHeight, pixels) :=
    match loaded with
    | Some img => (texWidth img, texHeight img, stbi_pixels img)
    | None => (1, 1, color)
    end in
  (* static_cast<uint64_t>(texWidth) * texHeight * sizeof(uint8_t) * 4 *)
  let bufferSize := texWidth * texHeight * 1 * 4 in
  let w := Int.to_uint32 texWidth in
  let h := Int.to_uint32 texHeight in
  i <- fresh ;;
  call (AllocCreateImage i w h (read_bytes bufferSize pixels) true) ;;
  call (CmdGenerateMipmaps i) ;;
  d <- fresh ;;
  call (AllocCreateTexture i d) ;;
  push_texture (mkTexture i d w h (read_bytes bufferSize pixels)).

Definition createTextureImages (textures : list string) : M unit :=
  have <- gets m_textures ;;
  match textures, have with
  | [], [] =>
      let color := [xff; xff; xff; xff] in
      let bufferSize := 4 in
      i <- fresh ;;
      call (AllocCreateImage i 1 1 (read_bytes bufferSize color) false) ;;
      d <- fresh ;;
      call (AllocCreateTexture i d) ;;
      call (CmdBarrierImageLayout i) ;;
      push_texture (mkTexture i d 1 1 (read_bytes bufferSize color))
  | _, _ => for_each textures upload_texture_file
  end.

(** The body of the sRGB-to-linear loop of [loadModel]. *)
Definition srgb_to_linear (m : MaterialObj) : MaterialObj :=
  mkMaterialObj (pow (ambient m) f32_2_2) (pow (diffuse m) f32_2_2)
                (pow (specular m) f32_2_2).

Definition loadModel (filename : string) (transform : mat4f) : M unit :=
  let loader := ObjLoader_loadModel filename in
  let materials := map srgb_to_linear (ObjLoader.m_materials loader) in
  nbModels <- gets (fun s => size (m_objModel s)) ;;
  nbTextures <- gets (fun s => size (m_textures s)) ;;
  let instance :=
    mkObjInstance (Int.to_uint32 nbModels) (Int.to_uint32 nbTextures)
                  transform (transpose (invert transform)) in
  let rtUsage :=
    Z.lor (Z.lor Vk.BUFFER_USAGE_STORAGE_BUFFER_BIT Vk.BUFFER_USAGE_SHADER_DEVICE_ADDRESS_BIT)
          Vk.BUFFER_USAGE_ACCELERATION_STRUCTURE_BUILD_INPUT_READ_ONLY_BIT_KHR in
  vb <- alloc_createBuffer (ObjLoader.m_vertices loader)
          (Z.lor Vk.BUFFER_USAGE_VERTEX_BUFFER_BIT rtUsage) ;;
  ib <- alloc_createBuffer (ObjLoader.m_indices loader)
          (Z.lor Vk.BUFFER_USAGE_INDEX_BUFFER_BIT rtUsage) ;;
  mc <- alloc_createBuffer materials Vk.BUFFER_USAGE_STORAGE_BUFFER_BIT ;;
  mi <- alloc_createBuffer (ObjLoader.m_matIndx loader) Vk.BUFFER_USAGE_STORAGE_BUFFER_BIT ;;
  createTextureImages (ObjLoader.m_textures loader) ;;
  call SubmitAndWait ;;
  call FinalizeAndReleaseStaging ;;
  let model :=
    mkObjModel (Int.to_uint32 (size (ObjLoader.m_indices loader)))
               (Int.to_uint32 (size (ObjLoader.m_vertices loader))) vb ib mc mi in
  modify (fun s => set_objModel (m_objModel s ++ [model]) s) ;;
  modify (fun s => set_objInstance (m_objInstance s ++ [instance]) s).

(** [m_descSetLayoutBind.addBinding(...)] *)
Definition addBinding (b : Z) (ty : Vk.DescriptorType) (count stages : Z) : M unit :=
  modify (fun s =>
    set_descSetLayoutBind (m_descSetLayoutBind s ++ [mkLayoutBinding b ty count stages]) s).

Definition createDescriptorSetLayout : M unit :=
  nbTxt <- gets (fun s => Int.to_uint32 (size (m_textures s))) ;;
  nbObj <- gets (fun s => Int.to_uint32 (size (m_objModel s))) ;;
  addBinding 0 Vk.DESCRIPTOR_TYPE_UNIFORM_BUFFER 1
    (Z.lor Vk.SHADER_STAGE_VERTEX_BIT Vk.SHADER_STAGE_RAYGEN_BIT_KHR) ;;
  addBinding 1 Vk.DESCRIPTOR_TYPE_STORAGE_BUFFER (Int.uadd32 nbObj 1)
    (Z.lor (Z.lor (Z.lor Vk.SHADER_STAGE_VERTEX_BIT Vk.SHADER_STAGE_FRAGMENT_BIT)
                  Vk.SHADER_STAGE_CLOSEST_HIT_BIT_KHR) Vk.SHADER_STAGE_ANY_HIT_BIT_KHR) ;;
  addBinding 2 Vk.DESCRIPTOR_TYPE_STORAGE_BUFFER 1
    (Z.lor (Z.lor (Z.lor Vk.SHADER_STAGE_VERTEX_BIT Vk.SHADER_STAGE_FRAGMENT_BIT)
                  Vk.SHADER_STAGE_CLOSEST_HIT_BIT_KHR) Vk.SHADER_STAGE_ANY_HIT_BIT_KHR) ;;
  addBinding 3 Vk.DESCRIPTOR_TYPE_COMBINED_IMAGE_SAMPLER nbTxt
    (Z.lor (Z.lor Vk.SHADER_STAGE_FRAGMENT_BIT Vk.SHADER_STAGE_CLOSEST_HIT_BIT_KHR)
           Vk.SHADER_STAGE_ANY_HIT_BIT_KHR) ;;
  addBinding 4 Vk.DESCRIPTOR_TYPE_STORAGE_BUFFER nbObj
    (Z.lor (Z.lor Vk.SHADER_STAGE_FRAGMENT_BIT Vk.SHADER_STAGE_CLOSEST_HIT_BIT_KHR)
           Vk.SHADER_STAGE_ANY_HIT_BIT_KHR) ;;
  addBinding 5 Vk.DESCRIPTOR_TYPE_STORAGE_BUFFER nbObj Vk.SHADER_STAGE_CLOSEST_HIT_BIT_KHR ;;
  addBinding 6 Vk.DESCRIPTOR_TYPE_STORAGE_BUFFER nbObj Vk.SHADER_STAGE_CLOSEST_HIT_BIT_KHR ;;
  addBinding 7 Vk.DESCRIPTOR_TYPE_STORAGE_BUFFER 1
    (Z.lor (Z.lor Vk.SHADER_STAGE_CLOSEST_HIT_BIT_KHR Vk.SHADER_STAGE_INTERSECTION_BIT_KHR)
           Vk.SHADER_STAGE_ANY_HIT_BIT_KHR) ;;
  l <- fresh ;; call (CreateLayout l) ;; modify (set_descSetLayout l) ;;
  p <- fresh ;; call (CreatePool p) ;; modify (set_descPool p) ;;
  d <- fresh ;; call (AllocateDescriptorSet d) ;; modify (set_descSet d).

(** [nvvk::DescriptorSetBindings::makeWrite]: the declared binding is
    looked up by number and the write gets a count of 1; [info] is the
    single object the caller points to.  For a binding that was never
    declared the library asserts in debug builds; what is kept here is
    the zeroed write it returns otherwise. *)
Definition find_binding (binds : list LayoutBinding) (b : Z) : option LayoutBinding :=
  find (fun x => binding x =? b) binds.

Definition makeWrite (binds : list LayoutBinding) (set : Handle) (b : Z)
    (info : list DescriptorInfo) : WriteDescriptorSet :=
  match find_binding binds b with
  | Some _ => mkWrite set b 1 info
  | None => mkWrite 0%nat 0 0 info
  end.

(** [nvvk::DescriptorSetBindings::makeWriteArray]: as [makeWrite], but the
    count is the one declared for the binding.  It receives a bare pointer:
    the length of the caller's vector is not passed to it. *)
Definition makeWriteArray (binds : list LayoutBinding) (set : Handle) (b : Z)
    (infos : list DescriptorInfo) : WriteDescriptorSet :=
  match find_binding binds b with
  | Some lb => mkWrite set b (descriptorCount lb) infos
  | None => mkWrite 0%nat 0 0 infos
  end.

(** One [makeWrite] or [makeWriteArray] call of [updateDescriptorSet]: the
    binding it names and the descriptors it points to. *)
Record WriteRequest : Type := mkRequest {
  req_is_array : bool;
  req_binding : Z;
  req_infos : list DescriptorInfo }.

Definition make (binds : list LayoutBinding) (set : Handle) (r : WriteRequest)
    : WriteDescriptorSet :=
  if req_is_array r
  then makeWriteArray binds set (req_binding r) (req_infos r)
  else makeWrite binds set (req_binding r) (req_infos r).

(** The four vectors filled by the loop of [updateDescriptorSet]. *)
Record DbiVectors : Type := mkDbi {
  dbiMat : list DescriptorInfo;
  dbiMatIdx : list DescriptorInfo;
  dbiVert : list DescriptorInfo;
  dbiIdx : list DescriptorInfo }.

Definition whole (b : Buffer) : DescriptorInfo :=
  DescriptorBufferInfo (buffer b) 0 Vk.WHOLE_SIZE.

(** One iteration: four [push_back]s. *)
Definition dbi_push (v : DbiVectors) (m : ObjModel) : DbiVectors :=
  mkDbi (dbiMat v ++ [whole (matColorBuffer m)])
        (dbiMatIdx v ++ [whole (matIndexBuffer m)])
        (dbiVert v ++ [whole (vertexBuffer m)])
        (dbiIdx v ++ [whole (indexBuffer m)]).

Definition dbi_of_models (models : list ObjModel) : DbiVectors :=
  fold_left dbi_push models (mkDbi [] [] [] []).

(** The writes [updateDescriptorSet] prepares, in the order of the source. *)
Definition descriptor_requests (s : HelloVulkan) : list WriteRequest :=
  let dbiUnif := whole (m_cameraMat s) in
  let dbiSceneDesc := whole (m_sceneDesc s) in
  let v := dbi_of_models (m_objModel s) in
  let dbiMat' := dbiMat v ++ [whole (implMatBuf (m_implObjects s))] in
  let diit := map (fun texture => DescriptorImageInfo (descriptor texture)) (m_textures s) in
  let dbiImplDesc := whole (implBuf (m_implObjects s)) in
  [ mkRequest false 0 [dbiUnif];
    mkRequest false 2 [dbiSceneDesc];
    mkRequest true 1 dbiMat';
    mkRequest true 4 (dbiMatIdx v);
    mkRequest true 5 (dbiVert v);
    mkRequest true 6 (dbiIdx v);
    mkRequest true 3 diit;
    mkRequest false 7 [dbiImplDesc] ].

(** The vector [writes] at the call of [vkUpdateDescriptorSets]. *)
Definition descriptor_writes (s : HelloVulkan) : list WriteDescriptorSet :=
  map (make (m_descSetLayoutBind s) (m_descSet s)) (descriptor_requests s).

Definition updateDescriptorSet : M unit :=
  writes <- gets descriptor_writes ;;
  call (VkUpdateDescriptorSets writes).

Definition destroyResources : M unit :=
  gp <- gets m_graphicsPipeline ;; call (VkDestroyPipeline gp) ;;
  pl <- gets m_pipelineLayout ;; call (VkDestroyPipelineLayout pl) ;;
  dp <- gets m_descPool ;; call (VkDestroyDescriptorPool dp) ;;
  dl <- gets m_descSetLayout ;; call (VkDestroyDescriptorSetLayout dl) ;;
  cm <- gets m_cameraMat ;; call (AllocDestroyBuffer (buffer cm)) ;;
  sd <- gets m_sceneDesc ;; call (AllocDestroyBuffer (buffer sd)) ;;
  io <- gets m_implObjects ;;
  call (AllocDestroyBuffer (buffer (implBuf io))) ;;
  call (AllocDestroyBuffer (buffer (implMatBuf io))) ;;
  models <- gets m_objModel ;;
  for_each models (fun m =>
    call (AllocDestroyBuffer (buffer (vertexBuffer m))) ;;
    call (AllocDestroyBuffer (buffer (indexBuffer m))) ;;
    call (AllocDestroyBuffer (buffer (matColorBuffer m))) ;;
    call (AllocDestroyBuffer (buffer (matIndexBuffer m)))) ;;
  textures <- gets m_textures ;;
  for_each textures (fun t => call (AllocDestroyTexture (image t))) ;;
  call OffscreenDestroy ;;
  call RaytracerDestroy ;;
  call AllocDeinit.

(** The loop of [rasterize], from instance number [i] on.  Indexing
    [m_objModel] outside the vector has no defined result: [None]. *)
Fixpoint rasterize_from (insts : list ObjInstance) (i : Z) (s : HelloVulkan)
    : option (HelloVulkan * list Call) :=
  match insts with
  | [] => Some (s, [])
  | inst :: rest =>
      match nth_error (m_objModel s) (Z.to_nat (objIndex inst)) with
      | None => None
      | Some model =>
          let s1 := set_pushConstants (mkObjPushConstants i (frame (m_pushConstants s))) s in
          match rasterize_from rest (i + 1) s1 with
          | None => None
          | Some (s2, t) =>
              Some (s2, [ VkCmdPushConstants (m_pipelineLayout s1) (m_pushConstants s1);
                          VkCmdBindVertexBuffers (buffer (vertexBuffer model));
                          VkCmdBindIndexBuffer (buffer (indexBuffer model));
                          VkCmdDrawIndexed (nbIndices model) ] ++ t)
          end
      end
  end.

Definition rasterize (s : HelloVulkan) : option (HelloVulkan * list Call) :=
  match rasterize_from (m_objInstance s) 0 s with
  | None => None
  | Some (s', t) =>
      Some (s', [ SetViewport;
                  VkCmdBindPipeline (m_graphicsPipeline s);
                  VkCmdBindDescriptorSets (m_pipelineLayout s) (m_descSet s) ] ++ t)
  end.

Definition resetFrame : M unit :=
  call Enter_resetFrame ;;
  modify (fun s => set_pushConstants (mkObjPushConstants (instanceId (m_pushConstants s)) (-1)) s).

Definition onResize : M unit :=
  call OffscreenCreateFramebuffer ;;
  call OffscreenUpdateDescriptorSet ;;
  call RaytracerUpdateRtDescriptorSet ;;
  resetFrame.

(** The condition of the [if] in [updateFrame]. *)
Definition camera_changed (r : RefCamera) (cam : CameraManipulator) : bool :=
  negb (memcmp (mat4f_bytes (refCamMatrix r)) (mat4f_bytes (getMatrix cam)) sizeof_mat4f =? 0)
  || f32_ne (refFov r) (getFov cam).

(** The values of the statics when the body of [updateFrame] starts: the
    first call initialises them, later calls find what was stored. *)
Definition stored_reference (cam : CameraManipulator) (s : HelloVulkan) : RefCamera :=
  match updateFrame_statics s with
  | Some r => r
  | None => mkRefCamera mat4f_default (getFov cam)
  end.

(** [m_pushConstants.frame++] *)
Definition frame_increment : M unit :=
  modify (fun s =>
    set_pushConstants
      (mkObjPushConstants (instanceId (m_pushConstants s))
                          (Int.incr (frame (m_pushConstants s)))) s).

Definition updateFrame (cam : CameraManipulator) : M unit :=
  r <- gets (stored_reference cam) ;;
  modify (set_statics (Some r)) ;;
  let m := getMatrix cam in
  let fov := getFov cam in
  (if camera_changed r cam
   then resetFrame ;; modify (set_statics (Some (mkRefCamera m fov)))
   else ret tt) ;;
  frame_increment.

Definition raytrace (cam : CameraManipulator) : M unit :=
  updateFrame cam ;;
  f <- gets (fun s => frame (m_pushConstants s)) ;;
  maxFrames <- gets m_maxFrames ;;
  if f >=? maxFrames
  then ret tt
  else (d <- gets m_descSet ;;
        pc <- gets m_pushConstants ;;
        call (RaytracerRaytrace d pc)).

(** [center - radius] and [center + radius]: the scalar is applied to
    every component. *)
Definition vec3_sub (v : vec3f) (r : float32) : vec3f :=
  Vec3 (f32_sub (vx v) r) (f32_sub (vy v) r) (f32_sub (vz v) r).
Definition vec3_add (v : vec3f) (r : float32) : vec3f :=
  Vec3 (f32_add (vx v) r) (f32_add (vy v) r) (f32_add (vz v) r).

Definition push_objImpl (impl : ObjImplicit) : M unit :=
  modify (fun s =>
    let io := m_implObjects s in
    set_implObjects (mkImplInst (objImpl io ++ [impl]) (implMat io) (implBuf io) (implMatBuf io)) s).

Definition push_implMat (mat : MaterialObj) : M unit :=
  modify (fun s =>
    let io := m_implObjects s in
    set_implObjects (mkImplInst (objImpl io) (implMat io ++ [mat]) (implBuf io) (implMatBuf io)) s).

Definition addImplSphere (center : vec3f) (radius : float32) (matId : Z) : M unit :=
  push_objImpl (mkObjImplicit (vec3_sub center radius) (vec3_add center radius) eSphere matId).

Definition addImplCube (minumum maximum : vec3f) (matId : Z) : M unit :=
  push_objImpl (mkObjImplicit minumum maximum eCube matId).

Definition addImplMaterial (mat : MaterialObj) : M unit :=
  push_implMat mat.

Definition createImplictBuffers : M unit :=
  io0 <- gets m_implObjects ;;
  (match objImpl io0 with [] => push_objImpl ObjImplicit_default | _ => ret tt end) ;;
  io1 <- gets m_implObjects ;;
  (match implMat io1 with [] => push_implMat MaterialObj_default | _ => ret tt end) ;;
  io2 <- gets m_implObjects ;;
  b <- alloc_createBuffer (objImpl io2)
         (Z.lor (Z.lor Vk.BUFFER_USAGE_STORAGE_BUFFER_BIT
                       Vk.BUFFER_USAGE_SHADER_BINDING_TABLE_BIT_KHR)
                Vk.BUFFER_USAGE_SHADER_DEVICE_ADDRESS_BIT) ;;
  modify (fun s =>
    let io := m_implObjects s in
    set_implObjects (mkImplInst (objImpl io) (implMat io) b (implMatBuf io)) s) ;;
  mb <- alloc_createBuffer (implMat io2) Vk.BUFFER_USAGE_STORAGE_BUFFER_BIT ;;
  modify (fun s =>
    let io := m_implObjects s in
    set_implObjects (mkImplInst (objImpl io) (implMat io) (implBuf io) mb) s) ;;
  call SubmitAndWait ;;
  call FinalizeAndReleaseStaging.

End Methods.

(** ** Runs and observations *)

Section Runs.

Context {nv : Nvmath} {assets : Assets} {dflt : Defaults}.

(** The calls a client makes on the object between construction and
    shutdown ([rasterize] apart, which only touches [instanceId]). *)
Inductive Op : Type :=
| OpLoadModel (filename : string) (transform : mat4f)
| OpAddImplSphere (center : vec3f) (radius : float32) (matId : Z)
| OpAddImplCube (minumum maximum : vec3f) (matId : Z)
| OpAddImplMaterial (mat : MaterialObj)
| OpCreateImplictBuffers
| OpCreateDescriptorSetLayout
| OpUpdateDescriptorSet
| OpRaytrace (cam : CameraManipulator)
| OpOnResize
| OpResetFrame.

Definition run_op (o : Op) : M unit :=
  match o with
  | OpLoadModel filename transform => loadModel filename transform
  | OpAddImplSphere center radius matId => addImplSphere center radius matId
  | OpAddImplCube minumum maximum matId => addImplCube minumum maximum matId
  | OpAddImplMaterial mat => addImplMaterial mat
  | OpCreateImplictBuffers => createImplictBuffers
  | OpCreateDescriptorSetLayout => createDescriptorSetLayout
  | OpUpdateDescriptorSet => updateDescriptorSet
  | OpRaytrace cam => raytrace cam
  | OpOnResize => onResize
  | OpResetFrame => resetFrame
  end.

Definition run_ops (ops : list Op) : M unit := for_each ops run_op.

(** Scene setup: one [loadModel] per mesh, in order. *)
Definition load_scene (scene : list (string * mat4f)) : M unit :=
  for_each scene (fun entry => loadModel (fst entry) (snd entry)).

(** One [updateFrame] per render tick: the state after each tick and the
    calls made during it. *)
Fixpoint updateFrame_ticks (cams : list CameraManipulator) (s : HelloVulkan)
    : list (HelloVulkan * list Call) :=
  match cams with
  | [] => []
  | cam :: rest =>
      let s' := exec (updateFrame cam) s in
      (s', trace (updateFrame cam) s) :: updateFrame_ticks rest s'
  end.

(** One [raytrace] per render tick. *)
Fixpoint raytrace_ticks (cams : list CameraManipulator) (s : HelloVulkan)
    : list (HelloVulkan * list Call) :=
  match cams with
  | [] => []
  | cam :: rest =>
      let s' := exec (raytrace cam) s in
      (s', trace (raytrace cam) s) :: raytrace_ticks rest s'
  end.

(** The statics of [updateFrame] hold a reference against which [cam]
    counts as unchanged. *)
Definition settled (cam : CameraManipulator) (s : HelloVulkan) : Prop :=
  exists r, updateFrame_statics s = Some r /\ camera_changed r cam = false.

End Runs.

Definition is_resetFrame (c : Call) : bool :=
  match c with Enter_resetFrame => true | _ => false end.

(** [resetFrame] was entered during the calls [t]. *)
Definition resets (t : list Call) : bool := existsb is_resetFrame t.

(** The frame numbers handed to the ray tracer during the calls [t]. *)
Definition dispatched_frames (t : list Call) : list Z :=
  flat_map (fun c => match c with RaytracerRaytrace _ pc => [frame pc] | _ => [] end) t.

(** The index counts of the draws issued during the calls [t]. *)
Definition draws (t : list Call) : list Z :=
  flat_map (fun c => match c with VkCmdDrawIndexed n => [n] | _ => [] end) t.

(** The writes handed to [vkUpdateDescriptorSets] during the calls [t]. *)
Definition issued_writes (t : list Call) : list WriteDescriptorSet :=
  flat_map (fun c => match c with VkUpdateDescriptorSets ws => ws | _ => [] end) t.

(** The array [updateDescriptorSet] points binding [b] to. *)
Definition array_at (b : Z) (rs : list WriteRequest) : option (list DescriptorInfo) :=
  option_map req_infos (find (fun r => req_binding r =? b) rs).

(** The write carries as many descriptors as its count announces. *)
Definition length_matches (w : WriteDescriptorSet) : bool :=
  writeCount w =? size (pInfo w).

Definition frame_of (s : HelloVulkan) : Z := frame (m_pushConstants s).

(** Every instance refers to a model that exists. *)
Definition objIndex_valid (s : HelloVulkan) : Prop :=
  Forall (fun inst => 0 <= objIndex inst < size (m_objModel s)) (m_objInstance s).

(** [l1] is an initial segment of [l2]. *)
Definition prefix_of {A : Type} (l1 l2 : list A) : Prop := exists l, l2 = l1 ++ l.

(** Classes of destroy calls, in the words of the teardown order. *)
Inductive ResourceClass : Type :=
| RcPipeline | RcLayout | RcPool | RcBuffer | RcImage | RcComponent.

Definition resource_class (c : Call) : option ResourceClass :=
  match c with
  | VkDestroyPipeline _ => Some RcPipeline
  | VkDestroyPipelineLayout _ => Some RcLayout
  | VkDestroyDescriptorSetLayout _ => Some RcLayout
  | VkDestroyDescriptorPool _ => Some RcPool
  | AllocDestroyBuffer _ => Some RcBuffer
  | AllocDestroyTexture _ => Some RcImage
  | OffscreenDestroy | RaytracerDestroy | AllocDeinit => Some RcComponent
  | _ => None
  end.

Definition class_rank (c : ResourceClass) : Z :=
  match c with
  | RcPipeline => 0 | RcLayout => 1 | RcPool => 2 | RcBuffer => 3 | RcImage => 4
  | RcComponent => 5
  end.

(** The classes of the resources released by the calls [t], in order. *)
Definition released_classes (t : list Call) : list ResourceClass :=
  flat_map (fun c => match resource_class c with Some k => [k] | None => [] end) t.

(** The order pipeline, layouts, pools, buffers, images: no class is
    released after a later one. *)
Fixpoint in_teardown_order (l : list ResourceClass) : bool :=
  match l with
  | [] => true
  | a :: l' =>
      forallb (fun b => class_rank a <=? class_rank b) l' && in_teardown_order l'
  end.

(** ** Sample data *)

Module Sample.

(** Exact transposition: a permutation of the sixteen floats. *)
Definition transpose_exact (m : mat4f) : mat4f :=
  Mat4 (a00 m) (a01 m) (a02 m) (a03 m) (a10 m) (a11 m) (a12 m) (a13 m)
       (a20 m) (a21 m) (a22 m) (a23 m) (a30 m) (a31 m) (a32 m) (a33 m).

(** Stand-ins for [nvmath] that are exact on the sample values used in
    this file: the identity matrix, a zero radius, and colours 0 and 1. *)
#[export] Instance nvmath : Nvmath := {|
  invert := fun m => m;
  transpose := transpose_exact;
  pow := fun v _ => v;
  f32_add := fun a _ => a;
  f32_sub := fun a _ => a;
  mat4f_default := mat4f_zero |}.

Definition origin : vec3f := Vec3 f32_zero f32_zero f32_zero.

Definition corner : VertexObj := mkVertexObj origin origin origin (f32_zero, f32_zero).

(** A file system in which every mesh file holds one triangle without
    material or texture, and no image file can be decoded. *)
#[export] Instance assets : Assets := {|
  ObjLoader_loadModel := fun _ => ObjLoader.mk [corner; corner; corner] [0; 1; 2] [] [] [];
  findFile := fun path => path;
  stbi_load := fun _ => None |}.

(** All-zero defaults. *)
#[export] Instance defaults : Defaults := {|
  ObjImplicit_default := mkObjImplicit origin origin eSphere 0;
  MaterialObj_default := mkMaterialObj origin origin origin |}.

(** A freshly constructed object with a frame budget of [maxFrames]. *)
Definition fresh_object (frame0 maxFrames : Z) : HelloVulkan :=
  mkHelloVulkan [] [] [] (mkImplInst [] [] (mkBuffer 0%nat) (mkBuffer 0%nat))
    (mkBuffer 0%nat) (mkBuffer 0%nat) [] 0%nat 0%nat 0%nat 0%nat 0%nat
    (mkObjPushConstants 0 frame0) maxFrames 1%nat None.

Definition camera : CameraManipulator := mkCamera mat4f_identity f32_60.

(** The same view with a field of view that is not a number. *)
Definition camera_nan : CameraManipulator := mkCamera mat4f_identity f32_qnan.

(** The object after its first render tick under [camera], with a budget
    of 100 frames. *)
Definition after_first_tick : HelloVulkan :=
  exec (updateFrame camera) (fresh_object 0 100).

(** The same under [camera_nan]. *)
Definition after_first_tick_nan : HelloVulkan :=
  exec (updateFrame camera_nan) (fresh_object 0 100).

(** One mesh loaded into a fresh object. *)
Definition one_model : HelloVulkan :=
  exec (loadModel "cube.obj" mat4f_identity) (fresh_object 0 100).


End Sample.

(** ** Further methods and observations *)

Definition set_sceneDesc (v : Buffer) (s : HelloVulkan) : HelloVulkan :=
  mkHelloVulkan (m_objModel s) (m_objInstance s) (m_textures s) (m_implObjects s) (m_cameraMat s)
    v (m_descSetLayoutBind s) (m_descPool s) (m_descSetLayout s) (m_descSet s)
    (m_pipelineLayout s) (m_graphicsPipeline s) (m_pushConstants s) (m_maxFrames s)
    (m_alloc s) (updateFrame_statics s).

Section MoreMethods.

Context {nv : Nvmath} {assets : Assets} {dflt : Defaults}.

Definition createSceneDescriptionBuffer : M unit :=
  insts <- gets m_objInstance ;;
  b <- alloc_createBuffer insts Vk.BUFFER_USAGE_STORAGE_BUFFER_BIT ;;
  modify (set_sceneDesc b) ;;
  call SubmitAndWait ;;
  call FinalizeAndReleaseStaging.

(** What the texture made from one file name shows: the decoded image, or
    the 1x1 magenta pixel when decoding fails. *)
Definition uploaded_from (texture : string) (t : Texture) : Prop :=
  match stbi_load (findFile (String.append "media/textures/" texture)) with
  | Some img =>
      extent_width t = Int.to_uint32 (texWidth img)
      /\ extent_height t = Int.to_uint32 (texHeight img)
      /\ texels t = firstn (Z.to_nat (texWidth img * texHeight img * 4)) (stbi_pixels img)
  | None =>
      extent_width t = 1 /\ extent_height t = 1 /\ texels t = [xff; x00; xff; xff]
  end.

End MoreMethods.

(** The model an instance refers to, if its index is inside the vector. *)
Definition model_of (s : HelloVulkan) (inst : ObjInstance) : option ObjModel :=
  nth_error (m_objModel s) (Z.to_nat (objIndex inst)).




(** The frame numbers handed to the ray tracer over a run of ticks. *)
Definition all_dispatched (ticks : list (HelloVulkan * list Call)) : list Z :=
  flat_map (fun p => dispatched_frames (snd p)) ticks.

(** The staging memory of the allocator, as the calls drive it: uploads are
    recorded into a command buffer, [SubmitAndWait] completes them, and
    [FinalizeAndReleaseStaging] frees the staging memory. *)
Inductive Staging : Type := Clean | Recording | Waited.

(** Releasing while an upload is recorded and not yet waited for has no
    successor. *)
Definition staging_step (st : Staging) (c : Call) : option Staging :=
  match c with
  | AllocCreateBuffer _ _ _ | AllocCreateImage _ _ _ _ _ => Some Recording
  | SubmitAndWait => Some Waited
  | FinalizeAndReleaseStaging =>
      match st with Recording => None | _ => Some Clean end
  | _ => Some st
  end.

Fixpoint staging_run (st : Staging) (t : list Call) : option Staging :=
  match t with
  | [] => Some st
  | c :: t' =>
      match staging_step st c with
      | Some st' => staging_run st' t'
      | None => None
      end
  end.

(** The buffers and textures handed to the allocator's [destroy]. *)
Definition destroyed_handles (t : list Call) : list Handle :=
  flat_map (fun c => match c with
                     | AllocDestroyBuffer b => [b]
                     | AllocDestroyTexture i => [i]
                     | _ => []
                     end) t.

(** The buffers created during the calls [t]. *)
Definition created_buffers (t : list Call) : list Handle :=
  flat_map (fun c => match c with AllocCreateBuffer b _ _ => [b] | _ => [] end) t.

(** Instance number k refers to model number k, and there is one instance
    per model. *)
Definition aligned (s : HelloVulkan) : Prop :=
  map objIndex (m_objInstance s) = map Z.of_nat (seq 0 (length (m_objModel s))).

(** ** Sample data with textures *)

Module Textured.

(** A decoded 2x1 image. *)
Definition wood : StbImage :=
  mkStbImage 2 1 [x10; x20; x30; xff; x40; x50; x60; xff].

(** A file system in which every mesh file holds one triangle that names
    two texture files, of which only [wood.png] can be decoded. *)
Definition assets : Assets := {|
  ObjLoader_loadModel := fun _ =>
    ObjLoader.mk [Sample.corner; Sample.corner; Sample.corner] [0; 1; 2] [] []
                 ["wood.png"%string; "missing.png"%string];
  findFile := fun path => path;
  stbi_load := fun path =>
    if String.eqb path "media/textures/wood.png" then Some wood else None |}.

End Textured.

(** ** The camera uniform buffer (createUniformBuffer, updateUniformBuffer) *)


Module Ubo.













End Ubo.

(** * Properties *)

(** ** Machine integers *)

Lemma wrap_in_range (n : Z) : Int.in_range (Int.wrap n).
Proof.
  unfold Int.in_range, Int.wrap, Int.INT_MIN, Int.INT_MAX, Int.UINT32_MOD.
  pose proof (Z.mod_pos_bound (n - -2147483648) 4294967296 eq_refl). lia.
Qed.

Lemma wrap_small (n : Z) : Int.in_range n -> Int.wrap n = n.
Proof.
  unfold Int.in_range, Int.wrap, Int.INT_MIN, Int.INT_MAX, Int.UINT32_MOD. intros H.
  rewrite Z.mod_small; lia.
Qed.

Lemma incr_below_max (x : Z) : Int.in_range x -> x < Int.INT_MAX -> Int.incr x = x + 1.
Proof.
  intros H Hlt. unfold Int.incr. apply wrap_small.
  unfold Int.in_range, Int.INT_MIN, Int.INT_MAX in *. lia.
Qed.

Lemma incr_at_max : Int.incr Int.INT_MAX = Int.INT_MIN.
Proof. reflexivity. Qed.

Lemma to_uint32_small (n : Z) : 0 <= n < Int.UINT32_MOD -> Int.to_uint32 n = n.
Proof. intros H. unfold Int.to_uint32. now apply Z.mod_small. Qed.

Lemma to_uint32_le (n : Z) : 0 <= n -> 0 <= Int.to_uint32 n <= n.
Proof.
  intros H. unfold Int.to_uint32, Int.UINT32_MOD. split.
  - apply Z.mod_pos_bound. lia.
  - apply Z.mod_le; lia.
Qed.

Lemma size_nonneg {A : Type} (l : list A) : 0 <= size l.
Proof. unfold size. lia. Qed.

Lemma size_app {A : Type} (l1 l2 : list A) : size (l1 ++ l2) = size l1 + size l2.
Proof. unfold size. rewrite length_app. lia. Qed.

(** ** Bytes, floats and [memcmp] *)

Lemma byte_val_inj (a b : byte) : byte_val a = byte_val b -> a = b.
Proof.
  unfold byte_val. intros H. apply N2Z.inj in H.
  pose proof (Byte.of_to_N a) as Ha. rewrite H, Byte.of_to_N in Ha.
  now inversion Ha.
Qed.

Lemma memcmp_zero_iff (n : nat) : forall p q,
  length p = n -> length q = n -> (memcmp p q n = 0 <-> p = q).
Proof.
  induction n as [|n IH]; intros p q Hp Hq.
  - destruct p, q; try discriminate. simpl. tauto.
  - destruct p as [|a p], q as [|b q]; try discriminate.
    simpl in Hp, Hq. injection Hp as Hp. injection Hq as Hq. simpl.
    destruct (Byte.eqb a b) eqn:E.
    + apply Byte.byte_dec_bl in E. subst b. rewrite (IH p q Hp Hq).
      split; [intros ->; reflexivity | intros H; now inversion H].
    + apply Byte.eqb_false in E. split.
      * intros H. exfalso. apply E. apply byte_val_inj. lia.
      * intros H. inversion H. contradiction.
Qed.

Lemma mat4f_bytes_length (m : mat4f) : length (mat4f_bytes m) = sizeof_mat4f.
Proof. reflexivity. Qed.

Lemma mat4f_bytes_inj (m1 m2 : mat4f) : mat4f_bytes m1 = mat4f_bytes m2 -> m1 = m2.
Proof.
  destruct m1 as [[] [] [] [] [] [] [] [] [] [] [] [] [] [] [] []].
  destruct m2 as [[] [] [] [] [] [] [] [] [] [] [] [] [] [] [] []].
  cbn. intros H. injection H. intros. subst. reflexivity.
Qed.

(** [memcmp] over two matrices is 0 exactly when they hold the same bytes. *)
Lemma memcmp_mat4f (m1 m2 : mat4f) :
  memcmp (mat4f_bytes m1) (mat4f_bytes m2) sizeof_mat4f = 0 <-> m1 = m2.
Proof.
  rewrite memcmp_zero_iff by apply mat4f_bytes_length.
  split; [apply mat4f_bytes_inj | now intros ->].
Qed.

Lemma f32_eq_refl (f : float32) : f32_eq f f = negb (f32_isnan f).
Proof.
  unfold f32_eq. rewrite Z.eqb_refl. cbn [orb].
  destruct (f32_isnan f); reflexivity.
Qed.

Lemma f32_ne_refl (f : float32) : f32_ne f f = f32_isnan f.
Proof. unfold f32_ne. rewrite f32_eq_refl. apply negb_involutive. Qed.

(** ** The monad *)

Lemma exec_bind {A B : Type} (m : M A) (k : A -> M B) (s : HelloVulkan) :
  exec (bind m k) s = exec (k (result m s)) (exec m s).
Proof.
  unfold exec, result, bind. destruct (m s) as [[a s1] t1]. cbn.
  destruct (k a s1) as [[b s2] t2]. reflexivity.
Qed.

Lemma trace_bind {A B : Type} (m : M A) (k : A -> M B) (s : HelloVulkan) :
  trace (bind m k) s = trace m s ++ trace (k (result m s)) (exec m s).
Proof.
  unfold trace, exec, result, bind. destruct (m s) as [[a s1] t1]. cbn.
  destruct (k a s1) as [[b s2] t2]. reflexivity.
Qed.

Lemma exec_for_each_cons {A : Type} (x : A) (l : list A) (body : A -> M unit) s :
  exec (for_each (x :: l) body) s = exec (for_each l body) (exec (body x) s).
Proof. cbn [for_each]. apply exec_bind. Qed.

Lemma trace_for_each_cons {A : Type} (x : A) (l : list A) (body : A -> M unit) s :
  trace (for_each (x :: l) body) s
  = trace (body x) s ++ trace (for_each l body) (exec (body x) s).
Proof. cbn [for_each]. apply trace_bind. Qed.

(** A property kept by every iteration is kept by the loop. *)
Lemma for_each_invariant {A : Type} (P : HelloVulkan -> Prop) (body : A -> M unit) :
  (forall x s, P s -> P (exec (body x) s)) ->
  forall l s, P s -> P (exec (for_each l body) s).
Proof.
  intros Hstep l. induction l as [|x l IH]; intros s Hs.
  - exact Hs.
  - rewrite exec_for_each_cons. apply IH, Hstep, Hs.
Qed.

(** A loop whose body only makes calls leaves the state it found. *)
Lemma for_each_calls {A : Type} (body : A -> M unit) (f : A -> list Call) :
  (forall x s, body x s = (tt, s, f x)) ->
  forall l s, for_each l body s = (tt, s, flat_map f l).
Proof.
  intros Hbody l. induction l as [|x l IH]; intros s.
  - reflexivity.
  - cbn [for_each flat_map]. unfold bind. rewrite Hbody, IH. reflexivity.
Qed.

(** ** Descriptor arrays (updateDescriptorSet) *)

Lemma dbi_fold (models : list ObjModel) : forall v,
  fold_left dbi_push models v
  = mkDbi (dbiMat v ++ map (fun m => whole (matColorBuffer m)) models)
          (dbiMatIdx v ++ map (fun m => whole (matIndexBuffer m)) models)
          (dbiVert v ++ map (fun m => whole (vertexBuffer m)) models)
          (dbiIdx v ++ map (fun m => whole (indexBuffer m)) models).
Proof.
  induction models as [|m models IH]; intros v; cbn [fold_left map].
  - rewrite !app_nil_r. now destruct v.
  - rewrite IH. unfold dbi_push. cbn [dbiMat dbiMatIdx dbiVert dbiIdx].
    now rewrite <- !app_assoc.
Qed.

Lemma dbi_of_models_map (models : list ObjModel) :
  dbi_of_models models
  = mkDbi (map (fun m => whole (matColorBuffer m)) models)
          (map (fun m => whole (matIndexBuffer m)) models)
          (map (fun m => whole (vertexBuffer m)) models)
          (map (fun m => whole (indexBuffer m)) models).
Proof. unfold dbi_of_models. now rewrite dbi_fold. Qed.


Lemma trace_updateDescriptorSet (s : HelloVulkan) :
  trace updateDescriptorSet s = [VkUpdateDescriptorSets (descriptor_writes s)].
Proof. reflexivity. Qed.

Lemma issued_updateDescriptorSet (s : HelloVulkan) :
  issued_writes (trace updateDescriptorSet s) = descriptor_writes s.
Proof.
  rewrite trace_updateDescriptorSet. unfold issued_writes. cbn [flat_map].
  apply app_nil_r.
Qed.



(** ** Frame accumulation (updateFrame, resetFrame, raytrace) *)

Section Accumulation.

Context {nv : Nvmath}.

(** The state [updateFrame] leaves, case by case. *)
Lemma exec_updateFrame (cam : CameraManipulator) (s : HelloVulkan) :
  exec (updateFrame cam) s
  = let r := stored_reference cam s in
    if camera_changed r cam
    then exec frame_increment
           (set_statics (Some (mkRefCamera (getMatrix cam) (getFov cam)))
              (exec resetFrame (set_statics (Some r) s)))
    else exec frame_increment (set_statics (Some r) s).
Proof.
  unfold updateFrame, exec, bind, gets, modify. cbn.
  destruct (camera_changed (stored_reference cam s) cam); reflexivity.
Qed.

Lemma trace_updateFrame (cam : CameraManipulator) (s : HelloVulkan) :
  trace (updateFrame cam) s
  = if camera_changed (stored_reference cam s) cam then [Enter_resetFrame] else [].
Proof.
  unfold updateFrame, trace, bind, gets, modify. cbn.
  destruct (camera_changed (stored_reference cam s) cam); reflexivity.
Qed.

Lemma resets_updateFrame (cam : CameraManipulator) (s : HelloVulkan) :
  resets (trace (updateFrame cam) s) = camera_changed (stored_reference cam s) cam.
Proof.
  rewrite trace_updateFrame.
  destruct (camera_changed (stored_reference cam s) cam); reflexivity.
Qed.

Lemma frame_of_increment (s : HelloVulkan) :
  frame_of (exec frame_increment s) = Int.incr (frame_of s).
Proof. reflexivity. Qed.

Lemma frame_of_resetFrame (s : HelloVulkan) : frame_of (exec resetFrame s) = -1.
Proof. reflexivity. Qed.

Lemma frame_of_updateFrame (cam : CameraManipulator) (s : HelloVulkan) :
  frame_of (exec (updateFrame cam) s)
  = Int.incr (if camera_changed (stored_reference cam s) cam then -1 else frame_of s).
Proof.
  rewrite exec_updateFrame. cbv zeta.
  destruct (camera_changed (stored_reference cam s) cam); reflexivity.
Qed.

Lemma camera_changed_iff (r : RefCamera) (cam : CameraManipulator) :
  camera_changed r cam = true <->
  memcmp (mat4f_bytes (refCamMatrix r)) (mat4f_bytes (getMatrix cam)) sizeof_mat4f <> 0
  \/ f32_ne (refFov r) (getFov cam) = true.
Proof.
  unfold camera_changed. rewrite orb_true_iff, negb_true_iff, Z.eqb_neq. tauto.
Qed.

(** A camera compared with itself counts as changed exactly when its field
    of view is a NaN. *)
Lemma camera_changed_self (cam : CameraManipulator) :
  camera_changed (mkRefCamera (getMatrix cam) (getFov cam)) cam = f32_isnan (getFov cam).
Proof.
  unfold camera_changed. cbn [refCamMatrix refFov].
  rewrite (proj2 (memcmp_mat4f (getMatrix cam) (getMatrix cam)) eq_refl).
  cbn. apply f32_ne_refl.
Qed.

(** C2, as the code has it: [updateFrame] enters [resetFrame] exactly when
    [memcmp] over the two 4x4 matrices is not 0, that is when the matrices
    differ in some byte, or when [refFov != fov] holds for the floats; a
    tick whose camera state is identical to the stored reference enters no
    reset provided the field of view is not a NaN. *)
Theorem updateFrame_reset_iff (cam : CameraManipulator) (s : HelloVulkan) :
  let r := stored_reference cam s in
  (resets (trace (updateFrame cam) s) = true <->
     memcmp (mat4f_bytes (refCamMatrix r)) (mat4f_bytes (getMatrix cam)) sizeof_mat4f <> 0
     \/ f32_ne (refFov r) (getFov cam) = true)
  /\ (memcmp (mat4f_bytes (refCamMatrix r)) (mat4f_bytes (getMatrix cam)) sizeof_mat4f <> 0
      <-> mat4f_bytes (refCamMatrix r) <> mat4f_bytes (getMatrix cam))
  /\ (r = mkRefCamera (getMatrix cam) (getFov cam) ->
      f32_isnan (getFov cam) = false ->
      resets (trace (updateFrame cam) s) = false).
Proof.
  intros r. split; [|split].
  - rewrite resets_updateFrame. apply camera_changed_iff.
  - rewrite memcmp_zero_iff by apply mat4f_bytes_length. tauto.
  - intros Hr Hnan. rewrite resets_updateFrame. fold r. rewrite Hr.
    now rewrite camera_changed_self.
Qed.

Lemma ticks_sorted (cams : list CameraManipulator) : forall s,
  Int.in_range (frame_of s) ->
  frame_of s + Z.of_nat (length cams) <= Int.INT_MAX ->
  (forall p, In p (updateFrame_ticks cams s) -> resets (snd p) = false) ->
  Sorted.StronglySorted Z.le
    (frame_of s :: map (fun p => frame_of (fst p)) (updateFrame_ticks cams s)).
Proof.
  induction cams as [|cam cams IH]; intros s Hr Hmax Hno.
  - cbn. constructor; constructor.
  - cbn [updateFrame_ticks map fst] in *.
    set (s' := exec (updateFrame cam) s) in *.
    assert (Hun : camera_changed (stored_reference cam s) cam = false).
    { rewrite <- resets_updateFrame. apply (Hno (s', trace (updateFrame cam) s)).
      now left. }
    assert (Hf : frame_of s' = frame_of s + 1).
    { unfold s'. rewrite frame_of_updateFrame, Hun. apply incr_below_max; [exact Hr|].
      cbn [length] in Hmax. lia. }
    assert (Hsorted : Sorted.StronglySorted Z.le
              (frame_of s' :: map (fun p => frame_of (fst p)) (updateFrame_ticks cams s'))).
    { apply IH.
      - rewrite Hf. unfold Int.in_range, Int.INT_MIN, Int.INT_MAX in *.
        cbn [length] in Hmax. lia.
      - rewrite Hf. cbn [length] in Hmax. lia.
      - intros p Hp. apply Hno. now right. }
    constructor; [exact Hsorted|].
    apply Sorted.StronglySorted_inv in Hsorted. destruct Hsorted as [_ Hall].
    constructor; [lia|].
    eapply Forall_impl; [|exact Hall]. intros z Hz. cbn in Hz. lia.
Qed.

(** C4: on a tick that finds the camera unchanged the counter goes up by
    exactly 1 (the counter being an [int] below [INT_MAX]); on a tick that
    finds it changed, [resetFrame] sets the counter to -1, the increment
    follows, and the tick ends with frame 0; over ticks without reset the
    counter never decreases. *)
Theorem updateFrame_counter (cam : CameraManipulator) (s : HelloVulkan) :
  let r := stored_reference cam s in
  let s' := exec (updateFrame cam) s in
  (camera_changed r cam = false ->
     Int.in_range (frame_of s) -> frame_of s < Int.INT_MAX ->
     s' = exec frame_increment (set_statics (Some r) s)
     /\ frame_of s' = frame_of s + 1)
  /\ (camera_changed r cam = true ->
       let reset := exec resetFrame (set_statics (Some r) s) in
       resets (trace (updateFrame cam) s) = true
       /\ frame_of reset = -1
       /\ s' = exec frame_increment
                 (set_statics (Some (mkRefCamera (getMatrix cam) (getFov cam))) reset)
       /\ frame_of s' = -1 + 1
       /\ frame_of s' = 0)
  /\ (forall cams,
       Int.in_range (frame_of s) ->
       frame_of s + Z.of_nat (length cams) <= Int.INT_MAX ->
       (forall p, In p (updateFrame_ticks cams s) -> resets (snd p) = false) ->
       Sorted.StronglySorted Z.le
         (frame_of s :: map (fun p => frame_of (fst p)) (updateFrame_ticks cams s))).
Proof.
  intros r s'. split; [|split].
  - intros Hun Hr Hlt. subst s'. rewrite exec_updateFrame. cbv zeta. fold r.
    rewrite Hun. split; [reflexivity|].
    rewrite frame_of_increment. now apply incr_below_max.
  - intros Hch reset. subst s'. rewrite resets_updateFrame, exec_updateFrame.
    cbv zeta. fold r. rewrite Hch. repeat split.
  - intros cams. apply ticks_sorted.
Qed.

(** [raytrace] changes the object only through [updateFrame]. *)
Lemma exec_raytrace (cam : CameraManipulator) (s : HelloVulkan) :
  exec (raytrace cam) s = exec (updateFrame cam) s.
Proof.
  unfold raytrace, exec, bind, gets.
  destruct (updateFrame cam s) as [[u s1] t1]. cbn.
  destruct (frame (m_pushConstants s1) >=? m_maxFrames s1); reflexivity.
Qed.

Lemma trace_raytrace (cam : CameraManipulator) (s : HelloVulkan) :
  trace (raytrace cam) s
  = trace (updateFrame cam) s
    ++ (let s' := exec (updateFrame cam) s in
        if frame_of s' >=? m_maxFrames s' then []
        else [RaytracerRaytrace (m_descSet s') (m_pushConstants s')]).
Proof.
  unfold raytrace, trace, exec, bind, gets, frame_of.
  destruct (updateFrame cam s) as [[u s1] t1]. cbn.
  destruct (frame (m_pushConstants s1) >=? m_maxFrames s1); reflexivity.
Qed.

Lemma dispatched_frames_app (t1 t2 : list Call) :
  dispatched_frames (t1 ++ t2) = dispatched_frames t1 ++ dispatched_frames t2.
Proof. apply flat_map_app. Qed.

Lemma dispatched_frames_raytrace (cam : CameraManipulator) (s : HelloVulkan) :
  dispatched_frames (trace (raytrace cam) s)
  = let s' := exec (updateFrame cam) s in
    if frame_of s' >=? m_maxFrames s' then [] else [frame_of s'].
Proof.
  rewrite trace_raytrace, dispatched_frames_app, trace_updateFrame. cbv zeta.
  destruct (camera_changed (stored_reference cam s) cam);
    destruct (_ >=? _); reflexivity.
Qed.

(** What [updateFrame] leaves alone. *)
Lemma updateFrame_members (cam : CameraManipulator) (s : HelloVulkan) :
  let s' := exec (updateFrame cam) s in
  m_maxFrames s' = m_maxFrames s
  /\ m_objModel s' = m_objModel s
  /\ m_objInstance s' = m_objInstance s.
Proof.
  cbv zeta. rewrite exec_updateFrame. cbv zeta.
  destruct (camera_changed (stored_reference cam s) cam); repeat split.
Qed.

Lemma settled_after_tick (cam : CameraManipulator) (s : HelloVulkan) :
  f32_isnan (getFov cam) = false -> settled cam (exec (updateFrame cam) s).
Proof.
  intros Hnan. rewrite exec_updateFrame. cbv zeta.
  destruct (camera_changed (stored_reference cam s) cam) eqn:E.
  - eexists. split; [reflexivity|]. now rewrite camera_changed_self.
  - eexists. split; [reflexivity|]. exact E.
Qed.

Lemma settled_stored (cam : CameraManipulator) (s : HelloVulkan) :
  settled cam s -> camera_changed (stored_reference cam s) cam = false.
Proof. intros (r & Hs & Hr). unfold stored_reference. now rewrite Hs. Qed.

Lemma settled_step (cam : CameraManipulator) (s : HelloVulkan) :
  settled cam s -> settled cam (exec (updateFrame cam) s).
Proof.
  intros H. pose proof (settled_stored _ _ H) as Hun.
  rewrite exec_updateFrame. cbv zeta. rewrite Hun.
  destruct H as (r & Hs & Hr). exists r. split; [|exact Hr].
  unfold stored_reference. rewrite Hs. reflexivity.
Qed.

(** Ticks under a camera that stays the same: tick [j+1] ends with the
    counter [j+1] above its start and dispatches unless the budget is
    reached. *)
Lemma steady_ticks (cam : CameraManipulator) (n : nat) : forall (s : HelloVulkan) (j : nat),
  settled cam s ->
  Int.in_range (frame_of s) ->
  frame_of s + Z.of_nat n <= Int.INT_MAX ->
  (j < n)%nat ->
  exists sj tj,
    nth_error (raytrace_ticks (repeat cam n) s) j = Some (sj, tj)
    /\ frame_of sj = frame_of s + Z.of_nat j + 1
    /\ dispatched_frames tj
       = (if frame_of sj >=? m_maxFrames s then [] else [frame_of sj])
    /\ m_objModel sj = m_objModel s
    /\ m_objInstance sj = m_objInstance s.
Proof.
  induction n as [|n IH]; intros s j Hset Hr Hmax Hj; [lia|].
  cbn [repeat raytrace_ticks].
  pose proof (updateFrame_members cam s) as (Hmf & Hmod & Hinst).
  assert (Hf : frame_of (exec (updateFrame cam) s) = frame_of s + 1).
  { rewrite frame_of_updateFrame, (settled_stored _ _ Hset).
    apply incr_below_max; [exact Hr | lia]. }
  destruct j as [|j].
  - cbn [nth_error]. eexists _, _. split; [reflexivity|].
    rewrite exec_raytrace, dispatched_frames_raytrace. cbv zeta.
    rewrite Hmf, Hf. repeat split; try assumption; lia.
  - cbn [nth_error]. rewrite exec_raytrace.
    destruct (IH (exec (updateFrame cam) s) j) as (sj & tj & Hn & Hfj & Hd & Hm & Hi).
    + now apply settled_step.
    + rewrite Hf. unfold Int.in_range, Int.INT_MIN, Int.INT_MAX in *. lia.
    + rewrite Hf. lia.
    + lia.
    + exists sj, tj. split; [exact Hn|].
      rewrite Hfj, Hf, Hm, Hi, Hmod, Hinst. rewrite Hmf, Hfj, Hf in Hd.
      replace (frame_of s + Z.of_nat (S j) + 1)
        with (frame_of s + 1 + Z.of_nat j + 1) by lia.
      repeat split. exact Hd.
Qed.

Lemma draws_draw_block (pc : ObjPushConstants) (l vb ib : Handle) (n : Z) (t : list Call) :
  draws ([VkCmdPushConstants l pc; VkCmdBindVertexBuffers vb;
          VkCmdBindIndexBuffer ib; VkCmdDrawIndexed n] ++ t)
  = n :: draws t.
Proof. reflexivity. Qed.

(** The draws of the rasterizer loop depend on the models and instances
    only: neither the frame counter nor the frame budget enters. *)
Lemma rasterize_from_draws (insts : list ObjInstance) : forall i1 i2 s1 s2,
  m_objModel s1 = m_objModel s2 ->
  option_map (fun r => draws (snd r)) (rasterize_from insts i1 s1)
  = option_map (fun r => draws (snd r)) (rasterize_from insts i2 s2).
Proof.
  induction insts as [|inst insts IH]; intros i1 i2 s1 s2 Hm; [reflexivity|].
  cbn [rasterize_from]. rewrite Hm.
  destruct (nth_error (m_objModel s2) (Z.to_nat (objIndex inst))) as [model|];
    [|reflexivity].
  specialize (IH (i1 + 1) (i2 + 1)
    (set_pushConstants (mkObjPushConstants i1 (frame (m_pushConstants s1))) s1)
    (set_pushConstants (mkObjPushConstants i2 (frame (m_pushConstants s2))) s2) Hm).
  destruct (rasterize_from insts (i1 + 1) _) as [[r1 t1]|];
    destruct (rasterize_from insts (i2 + 1) _) as [[r2 t2]|];
    cbn [option_map snd] in *; try discriminate; [|reflexivity].
  rewrite !draws_draw_block. injection IH as IH. now rewrite IH.
Qed.

Lemma rasterize_draws (s1 s2 : HelloVulkan) :
  m_objModel s1 = m_objModel s2 ->
  m_objInstance s1 = m_objInstance s2 ->
  option_map (fun r => draws (snd r)) (rasterize s1)
  = option_map (fun r => draws (snd r)) (rasterize s2).
Proof.
  intros Hm Hi. unfold rasterize. rewrite Hi.
  pose proof (rasterize_from_draws (m_objInstance s2) 0 0 s1 s2 Hm) as H.
  destruct (rasterize_from (m_objInstance s2) 0 s1) as [[r1 t1]|];
    destruct (rasterize_from (m_objInstance s2) 0 s2) as [[r2 t2]|];
    cbn [option_map snd] in *; try discriminate; [|reflexivity].
  injection H as H. unfold draws in *. rewrite !flat_map_app, H. reflexivity.
Qed.

(** C3: [m_maxFrames] is 100 and the camera is the same on 200
    consecutive ticks, unchanged in the sense of [updateFrame]'s own
    comparison; the ticks start from a reset counter or with the tick that
    sees the camera change.  Then tick k ends with frame k-1; ticks 1 to 100
    hand frames 0 to 99 to the ray tracer, ticks 101 to 200 return before
    the dispatch; [rasterize] issues the same draws after every tick as
    before the first. *)
Theorem raytrace_frame_budget (cam : CameraManipulator) (s : HelloVulkan) :
  m_maxFrames s = 100 ->
  frame_of s = -1 \/ camera_changed (stored_reference cam s) cam = true ->
  camera_changed (mkRefCamera (getMatrix cam) (getFov cam)) cam = false ->
  forall k : nat, (1 <= k <= 200)%nat ->
  exists sk tk,
    nth_error (raytrace_ticks (repeat cam 200%nat) s) (k - 1) = Some (sk, tk)
    /\ frame_of sk = Z.of_nat k - 1
    /\ dispatched_frames tk = (if (k <=? 100)%nat then [Z.of_nat k - 1] else [])
    /\ option_map (fun r => draws (snd r)) (rasterize sk)
       = option_map (fun r => draws (snd r)) (rasterize s).
Proof.
  intros Hmax Hstart Hnan k Hk. rewrite camera_changed_self in Hnan.
  change (repeat cam 200%nat) with (cam :: repeat cam 199%nat).
  cbn [raytrace_ticks]. rewrite exec_raytrace.
  pose proof (updateFrame_members cam s) as (Hmf & Hmod & Hinst).
  assert (Hf : frame_of (exec (updateFrame cam) s) = 0).
  { rewrite frame_of_updateFrame.
    destruct (camera_changed (stored_reference cam s) cam); [reflexivity|].
    destruct Hstart as [-> | Habs]; [reflexivity | discriminate]. }
  destruct (Nat.eq_dec k 1) as [-> | Hk1].
  - cbn [Nat.sub nth_error]. eexists _, _. split; [reflexivity|].
    rewrite dispatched_frames_raytrace. cbv zeta. rewrite Hmf, Hmax, Hf.
    repeat split. now apply rasterize_draws.
  - replace (k - 1)%nat with (S (k - 2)) by lia. cbn [nth_error].
    destruct (steady_ticks cam 199 (exec (updateFrame cam) s) (k - 2))
      as (sj & tj & Hn & Hfj & Hd & Hm & Hi).
    + now apply settled_after_tick.
    + rewrite Hf. unfold Int.in_range, Int.INT_MIN, Int.INT_MAX. lia.
    + rewrite Hf. unfold Int.INT_MAX. lia.
    + lia.
    + exists sj, tj. split; [exact Hn|].
      rewrite Hf in Hfj. rewrite Hmf, Hmax in Hd.
      assert (Hfk : frame_of sj = Z.of_nat k - 1) by lia.
      split; [exact Hfk|]. split.
      * rewrite Hd, Hfk, Z.geb_leb.
        destruct (Z.leb_spec 100 (Z.of_nat k - 1)); destruct (Nat.leb_spec k 100);
          try lia; reflexivity.
      * apply rasterize_draws; congruence.
Qed.

End Accumulation.

(** ** The registry (loadModel, createTextureImages, implicit objects) *)

Section Registry.

Context {nv : Nvmath} {assets : Assets} {dflt : Defaults}.

Lemma for_each_invariant_in {A : Type} (P : HelloVulkan -> Prop) (body : A -> M unit)
    (l : list A) :
  (forall x, In x l -> forall s, P s -> P (exec (body x) s)) ->
  forall s, P s -> P (exec (for_each l body) s).
Proof.
  induction l as [|x l IH]; intros Hstep s Hs.
  - exact Hs.
  - rewrite exec_for_each_cons. apply IH.
    + intros y Hy. apply Hstep. now right.
    + apply Hstep; [now left | exact Hs].
Qed.

(** Uploading one texture file appends one texture and takes two handles;
    nothing else moves. *)
Lemma exec_upload_texture_file (texture : string) (s : HelloVulkan) :
  exists t,
    exec (upload_texture_file texture) s
    = set_textures (m_textures s ++ [t]) (set_alloc (S (S (m_alloc s))) s).
Proof.
  unfold upload_texture_file.
  destruct (stbi_load (findFile ("media/textures/" ++ texture))) as [img|];
    eexists; reflexivity.
Qed.

(** [createTextureImages] touches the texture vector and the allocator
    only. *)
Lemma createTextureImages_frame (textures : list string) (s : HelloVulkan) :
  exists tx al,
    exec (createTextureImages textures) s = set_textures tx (set_alloc al s).
Proof.
  assert (Hloop : forall l s1,
    (exists tx al, s1 = set_textures tx (set_alloc al s)) ->
    exists tx al, exec (for_each l upload_texture_file) s1 = set_textures tx (set_alloc al s)).
  { intros l. apply (for_each_invariant
      (fun s1 => exists tx al, s1 = set_textures tx (set_alloc al s))).
    intros x s1 (tx & al & ->).
    destruct (exec_upload_texture_file x (set_textures tx (set_alloc al s))) as (t & ->).
    eexists _, _. reflexivity. }
  assert (Hs : exists tx al, s = set_textures tx (set_alloc al s)).
  { exists (m_textures s), (m_alloc s). now destruct s. }
  unfold createTextureImages.
  rewrite exec_bind. change (exec (gets m_textures) s) with s.
  change (result (gets m_textures) s) with (m_textures s).
  destruct textures as [|x l]; [destruct (m_textures s) eqn:E|].
  - eexists _, _. reflexivity.
  - apply (Hloop [] s Hs).
  - apply (Hloop (x :: l) s Hs).
Qed.

(** Without texture files: the white 1x1 placeholder is created when the
    texture vector is empty, and nothing is created otherwise. *)
Lemma createTextureImages_nil (s : HelloVulkan) :
  m_textures (exec (createTextureImages []) s)
  = match m_textures s with
    | [] => [mkTexture (m_alloc s) (S (m_alloc s)) 1 1 [xff; xff; xff; xff]]
    | _ :: _ => m_textures s
    end.
Proof.
  unfold createTextureImages. rewrite exec_bind.
  change (exec (gets m_textures) s) with s.
  change (result (gets m_textures) s) with (m_textures s).
  destruct (m_textures s) eqn:E.
  - cbn. rewrite E. reflexivity.
  - cbn. exact E.
Qed.

(** The state [loadModel] leaves: four buffers are created, the textures
    are handled, then one model and one instance are appended. *)
Lemma exec_loadModel (filename : string) (transform : mat4f) (s : HelloVulkan) :
  let loader := ObjLoader_loadModel filename in
  let h := m_alloc s in
  let model :=
    mkObjModel (Int.to_uint32 (size (ObjLoader.m_indices loader)))
               (Int.to_uint32 (size (ObjLoader.m_vertices loader)))
               (mkBuffer h) (mkBuffer (S h)) (mkBuffer (S (S h))) (mkBuffer (S (S (S h)))) in
  let instance :=
    mkObjInstance (Int.to_uint32 (size (m_objModel s))) (Int.to_uint32 (size (m_textures s)))
                  transform (transpose (invert transform)) in
  let s1 := exec (createTextureImages (ObjLoader.m_textures loader))
              (set_alloc (S (S (S (S h)))) s) in
  exec (loadModel filename transform) s
  = set_objInstance (m_objInstance s ++ [instance])
      (set_objModel (m_objModel s ++ [model]) s1).
Proof.
  cbv zeta. unfold loadModel, exec, bind, gets, modify, alloc_createBuffer, fresh, call, ret.
  cbn -[createTextureImages Int.to_uint32 size Z.lor].
  pose proof (createTextureImages_frame
    (ObjLoader.m_textures (ObjLoader_loadModel filename))
    (set_alloc (S (S (S (S (m_alloc s))))) s)) as (tx & al & Hfr).
  unfold exec in Hfr.
  destruct (createTextureImages _ _) as [[u s1] t1]. cbn in Hfr. subst s1.
  reflexivity.
Qed.

Lemma members_loadModel (filename : string) (xf : mat4f) (s : HelloVulkan) :
  let s' := exec (loadModel filename xf) s in
  m_textures s'
  = m_textures (exec (createTextureImages (ObjLoader.m_textures (ObjLoader_loadModel filename)))
                  (set_alloc (S (S (S (S (m_alloc s))))) s))
  /\ m_implObjects s' = m_implObjects s
  /\ (exists model, m_objModel s' = m_objModel s ++ [model])
  /\ m_objInstance s'
     = m_objInstance s
       ++ [mkObjInstance (Int.to_uint32 (size (m_objModel s)))
             (Int.to_uint32 (size (m_textures s))) xf (transpose (invert xf))].
Proof.
  cbv zeta. rewrite exec_loadModel. cbv zeta.
  destruct (createTextureImages_frame
    (ObjLoader.m_textures (ObjLoader_loadModel filename))
    (set_alloc (S (S (S (S (m_alloc s))))) s)) as (tx & al & ->).
  split; [reflexivity|]. split; [reflexivity|]. split; [|reflexivity].
  eexists. reflexivity.
Qed.

(** A mesh without textures leaves the texture vector as it is, unless the
    vector is empty: then the white placeholder is its only element. *)
Lemma textures_loadModel_plain (filename : string) (xf : mat4f) (s : HelloVulkan) :
  ObjLoader.m_textures (ObjLoader_loadModel filename) = [] ->
  m_textures (exec (loadModel filename xf) s)
  = match m_textures s with
    | [] => [mkTexture (S (S (S (S (m_alloc s))))) (S (S (S (S (S (m_alloc s)))))) 1 1
               [xff; xff; xff; xff]]
    | _ :: _ => m_textures s
    end.
Proof.
  intros Hno. destruct (members_loadModel filename xf s) as (-> & _).
  rewrite Hno, createTextureImages_nil. reflexivity.
Qed.

(** C5, for scenes with at least one mesh: when no loaded mesh refers to a
    texture, the texture vector after setup holds exactly one texture, of
    extent 1x1, whose four bytes are 255, 255, 255, 255. *)
Theorem placeholder_texture (scene : list (string * mat4f)) (s0 : HelloVulkan) :
  m_textures s0 = [] ->
  scene <> [] ->
  (forall e, In e scene -> ObjLoader.m_textures (ObjLoader_loadModel (fst e)) = []) ->
  exists t,
    m_textures (exec (load_scene scene) s0) = [t]
    /\ extent_width t = 1 /\ extent_height t = 1
    /\ texels t = [xff; xff; xff; xff].
Proof.
  intros Hempty Hscene Hno.
  destruct scene as [|e rest]; [contradiction|]. clear Hscene.
  unfold load_scene. rewrite exec_for_each_cons.
  apply (for_each_invariant_in
    (fun s => exists t, m_textures s = [t] /\ extent_width t = 1
                        /\ extent_height t = 1 /\ texels t = [xff; xff; xff; xff])).
  - intros x Hx s (t & Ht & Hw). exists t. split; [|exact Hw].
    rewrite textures_loadModel_plain by (apply Hno; now right).
    rewrite Ht. reflexivity.
  - eexists. rewrite textures_loadModel_plain by (apply Hno; now left).
    rewrite Hempty. repeat split.
Qed.

Lemma prefix_of_refl {A : Type} (l : list A) : prefix_of l l.
Proof. exists []. now rewrite app_nil_r. Qed.

Lemma prefix_of_trans {A : Type} (l1 l2 l3 : list A) :
  prefix_of l1 l2 -> prefix_of l2 l3 -> prefix_of l1 l3.
Proof. intros (a & ->) (b & ->). exists (a ++ b). now rewrite app_assoc. Qed.

Lemma members_raytrace (cam : CameraManipulator) (s : HelloVulkan) :
  let s' := exec (raytrace cam) s in
  m_objModel s' = m_objModel s /\ m_objInstance s' = m_objInstance s
  /\ m_implObjects s' = m_implObjects s.
Proof.
  cbv zeta. rewrite exec_raytrace, exec_updateFrame. cbv zeta.
  destruct (camera_changed (stored_reference cam s) cam); repeat split.
Qed.

Lemma exec_createImplictBuffers (s : HelloVulkan) :
  let io := m_implObjects s in
  let objs := match objImpl io with [] => [ObjImplicit_default] | _ :: _ => objImpl io end in
  let mats := match implMat io with [] => [MaterialObj_default] | _ :: _ => implMat io end in
  exec createImplictBuffers s
  = set_implObjects (mkImplInst objs mats (mkBuffer (m_alloc s)) (mkBuffer (S (m_alloc s))))
      (set_alloc (S (S (m_alloc s))) s)
  /\ trace createImplictBuffers s
     = [ AllocCreateBuffer (m_alloc s) (length objs)
           (Z.lor (Z.lor Vk.BUFFER_USAGE_STORAGE_BUFFER_BIT
                         Vk.BUFFER_USAGE_SHADER_BINDING_TABLE_BIT_KHR)
                  Vk.BUFFER_USAGE_SHADER_DEVICE_ADDRESS_BIT);
         AllocCreateBuffer (S (m_alloc s)) (length mats) Vk.BUFFER_USAGE_STORAGE_BUFFER_BIT;
         SubmitAndWait; FinalizeAndReleaseStaging ].
Proof.
  cbv zeta. unfold createImplictBuffers, exec, trace, bind, gets, modify, call, ret,
    alloc_createBuffer, fresh, push_objImpl, push_implMat.
  destruct s as [mo mi mt [objs mats ib mb] cm sd lb dp dl ds pl gp pc mf al st].
  destruct objs, mats; cbn -[Z.lor]; split; reflexivity.
Qed.

(** Apart from [loadModel], no call touches the models or the instances. *)
Lemma run_op_models (o : Op) (s : HelloVulkan) :
  match o with
  | OpLoadModel _ _ => True
  | _ => m_objModel (exec (run_op o) s) = m_objModel s
         /\ m_objInstance (exec (run_op o) s) = m_objInstance s
  end.
Proof.
  destruct o as [filename xf | | | | | | | cam | |]; cbn [run_op];
    try exact I; try (split; reflexivity).
  - destruct (exec_createImplictBuffers s) as (-> & _). split; reflexivity.
  - destruct (members_raytrace cam s) as (H1 & H2 & _). now split.
Qed.

Lemma objIndex_valid_loadModel (filename : string) (xf : mat4f) (s : HelloVulkan) :
  objIndex_valid s -> objIndex_valid (exec (loadModel filename xf) s).
Proof.
  unfold objIndex_valid. intros Hv.
  destruct (members_loadModel filename xf s) as (_ & _ & (model & ->) & ->).
  rewrite size_app. change (size [model]) with 1.
  pose proof (size_nonneg (m_objModel s)) as Hn.
  apply Forall_app. split.
  - eapply Forall_impl; [|exact Hv]. cbn. intros inst H. lia.
  - constructor; [|constructor]. cbn [objIndex].
    pose proof (to_uint32_le _ Hn). lia.
Qed.

Lemma objIndex_valid_run_op (o : Op) (s : HelloVulkan) :
  objIndex_valid s -> objIndex_valid (exec (run_op o) s).
Proof.
  intros Hv. pose proof (run_op_models o s) as H.
  destruct o; [now apply objIndex_valid_loadModel | ..];
    destruct H as [Hm Hi]; unfold objIndex_valid; now rewrite Hm, Hi.
Qed.

Lemma objIndex_valid_run_ops (ops : list Op) (s : HelloVulkan) :
  objIndex_valid s -> objIndex_valid (exec (run_ops ops) s).
Proof.
  apply (for_each_invariant objIndex_valid). intros o s1. apply objIndex_valid_run_op.
Qed.

(** C8: [loadModel] appends exactly one model and exactly one instance;
    the instance's [objIndex] is the number of models before the call
    (taken as a [uint32_t], so for fewer than 2^32 models), which makes it
    an index into the model vector, and 0 for the first model; its
    [transformIT] is [transpose(invert(transform))]; over any sequence of
    calls every instance keeps a valid [objIndex]. *)
Theorem loadModel_appends (filename : string) (xf : mat4f) (s : HelloVulkan) :
  let s' := exec (loadModel filename xf) s in
  (exists model instance,
      m_objModel s' = m_objModel s ++ [model]
      /\ m_objInstance s' = m_objInstance s ++ [instance]
      /\ objIndex instance = Int.to_uint32 (size (m_objModel s))
      /\ (size (m_objModel s) < Int.UINT32_MOD -> objIndex instance = size (m_objModel s))
      /\ 0 <= objIndex instance < size (m_objModel s')
      /\ transform instance = xf
      /\ transformIT instance = transpose (invert xf)
      /\ (m_objModel s = [] -> objIndex instance = 0))
  /\ (objIndex_valid s -> objIndex_valid s')
  /\ (forall ops s0, objIndex_valid s0 -> objIndex_valid (exec (run_ops ops) s0)).
Proof.
  intros s'. split; [|split].
  - destruct (members_loadModel filename xf s) as (_ & _ & (model & Hm) & Hi).
    fold s' in Hm, Hi. exists model. eexists. split; [exact Hm|]. split; [exact Hi|].
    cbn [objIndex transform transformIT].
    pose proof (size_nonneg (m_objModel s)) as Hn.
    pose proof (to_uint32_le _ Hn) as Hle.
    repeat split; try lia.
    + intros Hlt. apply to_uint32_small. lia.
    + rewrite Hm, size_app. change (size [model]) with 1. lia.
    + intros ->. reflexivity.
  - apply objIndex_valid_loadModel.
  - intros ops s0. apply objIndex_valid_run_ops.
Qed.

(** No call shortens the implicit-primitive vector. *)
Lemma objImpl_run_op (o : Op) (s : HelloVulkan) :
  prefix_of (objImpl (m_implObjects s)) (objImpl (m_implObjects (exec (run_op o) s))).
Proof.
  destruct o as [filename xf | | | | | | | cam | |]; cbn [run_op];
    try apply prefix_of_refl.
  - destruct (members_loadModel filename xf s) as (_ & -> & _).
    apply prefix_of_refl.
  - eexists. reflexivity.
  - eexists. reflexivity.
  - destruct (exec_createImplictBuffers s) as (-> & _). cbn.
    destruct (objImpl (m_implObjects s)); [now exists [ObjImplicit_default]|].
    apply prefix_of_refl.
  - destruct (members_raytrace cam s) as (_ & _ & ->). apply prefix_of_refl.
Qed.

Lemma objImpl_run_ops (ops : list Op) : forall s,
  prefix_of (objImpl (m_implObjects s)) (objImpl (m_implObjects (exec (run_ops ops) s))).
Proof.
  induction ops as [|o ops IH]; intros s.
  - apply prefix_of_refl.
  - unfold run_ops. rewrite exec_for_each_cons.
    eapply prefix_of_trans; [apply objImpl_run_op | apply IH].
Qed.

(** C9: [addImplSphere] appends one entry to the implicit-primitive vector:
    its minimum is [center - radius], its maximum [center + radius]
    (component by component), its type the sphere tag, its material the
    given id.  No other member changes, no call leaves the class, and no
    sequence of calls removes an entry. *)
Theorem addImplSphere_appends (center : vec3f) (radius : float32) (id : Z)
    (s : HelloVulkan) :
  let s' := exec (addImplSphere center radius id) s in
  let io := m_implObjects s in
  (exists e,
      objImpl (m_implObjects s') = objImpl io ++ [e]
      /\ minimum e = Vec3 (f32_sub (vx center) radius) (f32_sub (vy center) radius)
                          (f32_sub (vz center) radius)
      /\ maximum e = Vec3 (f32_add (vx center) radius) (f32_add (vy center) radius)
                          (f32_add (vz center) radius)
      /\ objType e = eSphere
      /\ matId e = id)
  /\ s' = set_implObjects
            (mkImplInst (objImpl (m_implObjects s')) (implMat io) (implBuf io) (implMatBuf io)) s
  /\ trace (addImplSphere center radius id) s = []
  /\ (forall ops s0,
        prefix_of (objImpl (m_implObjects s0))
                  (objImpl (m_implObjects (exec (run_ops ops) s0)))).
Proof.
  intros s' io. split; [|split; [|split]].
  - eexists. split; [reflexivity|]. repeat split.
  - reflexivity.
  - reflexivity.
  - intros ops s0. apply objImpl_run_ops.
Qed.

(** C7: [createImplictBuffers] leaves both implicit vectors non-empty
    before it creates the buffers from them: an empty primitive vector
    gets exactly one default entry, an empty material vector gets exactly
    one default entry, a non-empty vector is left as it is, and the two
    buffers are created from the resulting vectors.  After two
    [addImplSphere] and no [addImplMaterial] the material vector is the
    single default entry. *)
Theorem createImplictBuffers_nonempty (s : HelloVulkan) :
  let io := m_implObjects s in
  let io' := m_implObjects (exec createImplictBuffers s) in
  objImpl io' = match objImpl io with [] => [ObjImplicit_default] | _ :: _ => objImpl io end
  /\ implMat io' = match implMat io with [] => [MaterialObj_default] | _ :: _ => implMat io end
  /\ objImpl io' <> [] /\ implMat io' <> []
  /\ (exists u1 u2,
        trace createImplictBuffers s
        = [ AllocCreateBuffer (buffer (implBuf io')) (length (objImpl io')) u1;
            AllocCreateBuffer (buffer (implMatBuf io')) (length (implMat io')) u2;
            SubmitAndWait; FinalizeAndReleaseStaging ])
  /\ (forall c1 r1 id1 c2 r2 id2,
        implMat io = [] ->
        let built := m_implObjects
                       (exec (addImplSphere c1 r1 id1 ;; addImplSphere c2 r2 id2 ;;
                              createImplictBuffers) s) in
        implMat built = [MaterialObj_default]
        /\ objImpl built
           = objImpl io ++ [mkObjImplicit (vec3_sub c1 r1) (vec3_add c1 r1) eSphere id1;
                            mkObjImplicit (vec3_sub c2 r2) (vec3_add c2 r2) eSphere id2]).
Proof.
  intros io io'. destruct (exec_createImplictBuffers s) as (He & Ht).
  cbv zeta in He, Ht. fold io in He, Ht.
  assert (Hio : io' = mkImplInst
            match objImpl io with [] => [ObjImplicit_default] | _ :: _ => objImpl io end
            match implMat io with [] => [MaterialObj_default] | _ :: _ => implMat io end
            (mkBuffer (m_alloc s)) (mkBuffer (S (m_alloc s)))).
  { unfold io'. rewrite He. reflexivity. }
  rewrite Hio. cbn [objImpl implMat implBuf implMatBuf buffer].
  split; [reflexivity|]. split; [reflexivity|].
  split; [destruct (objImpl io); discriminate|].
  split; [destruct (implMat io); discriminate|].
  split; [eexists _, _; exact Ht|].
  intros c1 r1 id1 c2 r2 id2 Hmat.
  rewrite !exec_bind.
  set (s2 := exec (addImplSphere c2 r2 id2) (exec (addImplSphere c1 r1 id1) s)).
  destruct (exec_createImplictBuffers s2) as (-> & _). cbv zeta.
  cbn [m_implObjects set_implObjects implMat objImpl].
  assert (H2 : m_implObjects s2
               = mkImplInst (objImpl io ++ [mkObjImplicit (vec3_sub c1 r1) (vec3_add c1 r1) eSphere id1]
                               ++ [mkObjImplicit (vec3_sub c2 r2) (vec3_add c2 r2) eSphere id2])
                   (implMat io) (implBuf io) (implMatBuf io)).
  { unfold s2. cbn. now rewrite <- app_assoc. }
  rewrite H2. cbn [implMat objImpl]. rewrite Hmat. split; [reflexivity|].
  destruct (objImpl io); reflexivity.
Qed.

End Registry.

(** ** Teardown (destroyResources) *)

Lemma released_model_buffers (models : list ObjModel) :
  released_classes
    (flat_map (fun m => [ AllocDestroyBuffer (buffer (vertexBuffer m));
                          AllocDestroyBuffer (buffer (indexBuffer m));
                          AllocDestroyBuffer (buffer (matColorBuffer m));
                          AllocDestroyBuffer (buffer (matIndexBuffer m)) ]) models)
  = repeat RcBuffer (4 * length models).
Proof.
  induction models as [|m models IH]; [reflexivity|].
  cbn [flat_map]. unfold released_classes in *. rewrite flat_map_app, IH.
  replace (4 * length (m :: models))%nat with (4 + 4 * length models)%nat by (cbn; lia).
  reflexivity.
Qed.

Lemma released_textures (textures : list Texture) :
  released_classes (map (fun t => AllocDestroyTexture (image t)) textures)
  = repeat RcImage (length textures).
Proof.
  induction textures as [|t textures IH]; [reflexivity|].
  cbn [map length repeat]. rewrite <- IH. reflexivity.
Qed.

(** C10, as the code has it: [destroyResources] destroys the graphics
    pipeline, the pipeline layout, the descriptor pool, the descriptor-set
    layout, then the buffers (camera, scene description, implicit
    primitives, implicit materials, four per model in model order), then
    the textures in order, then the offscreen pass, the ray tracer and the
    allocator.  The descriptor pool goes before the descriptor-set layout. *)
Theorem destroyResources_order (s : HelloVulkan) :
  trace destroyResources s
  = [ VkDestroyPipeline (m_graphicsPipeline s);
      VkDestroyPipelineLayout (m_pipelineLayout s);
      VkDestroyDescriptorPool (m_descPool s);
      VkDestroyDescriptorSetLayout (m_descSetLayout s) ]
    ++ [ AllocDestroyBuffer (buffer (m_cameraMat s));
         AllocDestroyBuffer (buffer (m_sceneDesc s));
         AllocDestroyBuffer (buffer (implBuf (m_implObjects s)));
         AllocDestroyBuffer (buffer (implMatBuf (m_implObjects s))) ]
    ++ flat_map (fun m => [ AllocDestroyBuffer (buffer (vertexBuffer m));
                            AllocDestroyBuffer (buffer (indexBuffer m));
                            AllocDestroyBuffer (buffer (matColorBuffer m));
                            AllocDestroyBuffer (buffer (matIndexBuffer m)) ]) (m_objModel s)
    ++ map (fun t => AllocDestroyTexture (image t)) (m_textures s)
    ++ [OffscreenDestroy; RaytracerDestroy; AllocDeinit]
  /\ released_classes (trace destroyResources s)
     = [RcPipeline; RcLayout; RcPool; RcLayout]
       ++ repeat RcBuffer (4 + 4 * length (m_objModel s))
       ++ repeat RcImage (length (m_textures s))
       ++ [RcComponent; RcComponent; RcComponent]
  /\ exec destroyResources s = s.
Proof.
  assert (Hrun : destroyResources s
    = (tt, s,
       [ VkDestroyPipeline (m_graphicsPipeline s);
         VkDestroyPipelineLayout (m_pipelineLayout s);
         VkDestroyDescriptorPool (m_descPool s);
         VkDestroyDescriptorSetLayout (m_descSetLayout s) ]
       ++ [ AllocDestroyBuffer (buffer (m_cameraMat s));
            AllocDestroyBuffer (buffer (m_sceneDesc s));
            AllocDestroyBuffer (buffer (implBuf (m_implObjects s)));
            AllocDestroyBuffer (buffer (implMatBuf (m_implObjects s))) ]
       ++ flat_map (fun m => [ AllocDestroyBuffer (buffer (vertexBuffer m));
                               AllocDestroyBuffer (buffer (indexBuffer m));
                               AllocDestroyBuffer (buffer (matColorBuffer m));
                               AllocDestroyBuffer (buffer (matIndexBuffer m)) ]) (m_objModel s)
       ++ map (fun t => AllocDestroyTexture (image t)) (m_textures s)
       ++ [OffscreenDestroy; RaytracerDestroy; AllocDeinit])).
  { unfold destroyResources, bind, gets, call.
    rewrite (for_each_calls _ (fun m => [ AllocDestroyBuffer (buffer (vertexBuffer m));
                               AllocDestroyBuffer (buffer (indexBuffer m));
                               AllocDestroyBuffer (buffer (matColorBuffer m));
                               AllocDestroyBuffer (buffer (matIndexBuffer m)) ]))
      by reflexivity.
    rewrite (for_each_calls _ (fun t => [AllocDestroyTexture (image t)])) by reflexivity.
    assert (Hsingle : forall l : list Texture,
              flat_map (fun t => [AllocDestroyTexture (image t)]) l
              = map (fun t => AllocDestroyTexture (image t)) l).
    { induction l; cbn; congruence. }
    rewrite <- Hsingle. reflexivity. }
  unfold trace, exec. rewrite Hrun. cbn [fst snd].
  split; [reflexivity|]. split; [|reflexivity].
  unfold released_classes. rewrite !flat_map_app.
  fold (released_classes (flat_map (fun m => [ AllocDestroyBuffer (buffer (vertexBuffer m));
                            AllocDestroyBuffer (buffer (indexBuffer m));
                            AllocDestroyBuffer (buffer (matColorBuffer m));
                            AllocDestroyBuffer (buffer (matIndexBuffer m)) ]) (m_objModel s))).
  fold (released_classes (map (fun t => AllocDestroyTexture (image t)) (m_textures s))).
  rewrite released_model_buffers, released_textures. reflexivity.
Qed.

(** ** Declared counts against array lengths (createDescriptorSetLayout,
       updateDescriptorSet) *)

(** The bindings [createDescriptorSetLayout] declares, by number and count. *)
Lemma exec_createDescriptorSetLayout (s : HelloVulkan) :
  let s' := exec createDescriptorSetLayout s in
  let nbTxt := Int.to_uint32 (size (m_textures s)) in
  let nbObj := Int.to_uint32 (size (m_objModel s)) in
  map (fun b => (binding b, descriptorCount b)) (m_descSetLayoutBind s')
  = map (fun b => (binding b, descriptorCount b)) (m_descSetLayoutBind s)
    ++ [(0, 1); (1, Int.uadd32 nbObj 1); (2, 1); (3, nbTxt);
        (4, nbObj); (5, nbObj); (6, nbObj); (7, 1)]
  /\ m_objModel s' = m_objModel s
  /\ m_textures s' = m_textures s
  /\ m_implObjects s' = m_implObjects s
  /\ m_cameraMat s' = m_cameraMat s
  /\ m_sceneDesc s' = m_sceneDesc s.
Proof.
  cbv zeta. unfold createDescriptorSetLayout, exec, bind, gets, modify, addBinding, fresh, call.
  cbn -[Int.to_uint32 Int.uadd32 size Z.lor].
  rewrite <- !app_assoc, map_app. repeat split.
Qed.

Lemma find_binding_counts (binds : list LayoutBinding) (l : list (Z * Z)) (b : Z) :
  map (fun x => (binding x, descriptorCount x)) binds = l ->
  option_map descriptorCount (find_binding binds b)
  = option_map snd (find (fun p => fst p =? b) l).
Proof.
  intros <-. unfold find_binding. induction binds as [|x binds IH]; [reflexivity|].
  cbn [map find fst]. destruct (binding x =? b); [reflexivity | exact IH].
Qed.



(** ** Textures of a mesh (createTextureImages, loadModel) *)

Section Textures.

Context {nv : Nvmath} {assets : Assets} {dflt : Defaults}.

Lemma upload_texture_file_spec (texture : string) (s : HelloVulkan) :
  exists t,
    uploaded_from texture t
    /\ exec (upload_texture_file texture) s
       = set_textures (m_textures s ++ [t]) (set_alloc (S (S (m_alloc s))) s).
Proof.
  unfold upload_texture_file, uploaded_from.
  destruct (stbi_load (findFile ("media/textures/" ++ texture))) as [img|].
  - eexists. split; [|reflexivity]. cbn [extent_width extent_height texels].
    unfold read_bytes. now rewrite Z.mul_1_r.
  - eexists. split; [|reflexivity]. repeat split.
Qed.

Lemma upload_texture_files (files : list string) : forall s,
  exists new al,
    Forall2 uploaded_from files new
    /\ exec (for_each files upload_texture_file) s
       = set_textures (m_textures s ++ new) (set_alloc al s).
Proof.
  induction files as [|file files IH]; intros s.
  - exists [], (m_alloc s). split; [constructor|].
    rewrite app_nil_r. now destruct s.
  - rewrite exec_for_each_cons.
    destruct (upload_texture_file_spec file s) as (t & Ht & ->).
    destruct (IH (set_textures (m_textures s ++ [t]) (set_alloc (S (S (m_alloc s))) s)))
      as (new & al & Hnew & ->).
    exists (t :: new), al. split; [now constructor|].
    cbn. now rewrite <- app_assoc.
Qed.

Lemma exec_createTextureImages_cons (file : string) (files : list string) (s : HelloVulkan) :
  exec (createTextureImages (file :: files)) s
  = exec (for_each (file :: files) upload_texture_file) s.
Proof.
  unfold createTextureImages. rewrite exec_bind. reflexivity.
Qed.

(** Whatever the file list, [createTextureImages] only appends. *)
Lemma textures_grow (files : list string) (s : HelloVulkan) :
  exists new,
    m_textures (exec (createTextureImages files) s) = m_textures s ++ new.
Proof.
  destruct files as [|file files].
  - rewrite createTextureImages_nil. destruct (m_textures s) as [|t l].
    + eexists. reflexivity.
    + exists []. now rewrite app_nil_r.
  - rewrite exec_createTextureImages_cons.
    destruct (upload_texture_files (file :: files) s) as (new & al & _ & ->).
    exists new. reflexivity.
Qed.

(** X1: given a non-empty list of texture files, [createTextureImages]
    appends exactly one texture per file, in the order of the list: the
    decoded image where decoding succeeds, the 1x1 magenta pixel where it
    fails; no white placeholder is added.  Given no file and a non-empty
    texture vector, it leaves the vector as it is. *)
Theorem createTextureImages_files (files : list string) (s : HelloVulkan) :
  (files <> [] ->
     exists new,
       Forall2 uploaded_from files new
       /\ m_textures (exec (createTextureImages files) s) = m_textures s ++ new)
  /\ (files = [] -> m_textures s <> [] ->
      m_textures (exec (createTextureImages files) s) = m_textures s).
Proof.
  split.
  - intros Hne. destruct files as [|file files]; [contradiction|].
    rewrite exec_createTextureImages_cons.
    destruct (upload_texture_files (file :: files) s) as (new & al & Hnew & ->).
    exists new. split; [exact Hnew | reflexivity].
  - intros -> Hne. rewrite createTextureImages_nil.
    destruct (m_textures s); [contradiction | reflexivity].
Qed.

(** X2: the [txtOffset] of the instance made by [loadModel] is the position
    of the mesh's first texture in the texture vector: the texture made
    from the mesh's i-th file sits at index [txtOffset + i] (for fewer than
    2^32 textures). *)
Theorem loadModel_txtOffset (filename : string) (xf : mat4f) (s : HelloVulkan) :
  let files := ObjLoader.m_textures (ObjLoader_loadModel filename) in
  let s' := exec (loadModel filename xf) s in
  files <> [] ->
  size (m_textures s) < Int.UINT32_MOD ->
  exists instance new,
    m_objInstance s' = m_objInstance s ++ [instance]
    /\ txtOffset instance = size (m_textures s)
    /\ Forall2 uploaded_from files new
    /\ forall i t, nth_error new i = Some t ->
                   nth_error (m_textures s') (Z.to_nat (txtOffset instance) + i) = Some t.
Proof.
  intros files s' Hne Hsmall.
  destruct (members_loadModel filename xf s) as (Ht & _ & _ & Hi).
  fold s' in Ht, Hi. fold files in Ht.
  destruct files as [|file rest] eqn:Hfiles; [contradiction|].
  rewrite exec_createTextureImages_cons in Ht.
  destruct (upload_texture_files (file :: rest) (set_alloc (S (S (S (S (m_alloc s))))) s))
    as (new & al & Hnew & He).
  rewrite He in Ht. cbn [m_textures set_textures set_alloc] in Ht.
  eexists. exists new. split; [exact Hi|]. cbn [txtOffset].
  pose proof (size_nonneg (m_textures s)) as Hn.
  rewrite to_uint32_small by lia.
  split; [reflexivity|]. split; [exact Hnew|].
  intros i t Hnth. rewrite Ht. unfold size. rewrite Nat2Z.id.
  rewrite nth_error_app2 by lia.
  now replace (length (m_textures s) + i - length (m_textures s))%nat with i by lia.
Qed.

End Textures.

(** ** Growth of the registry *)

Section Growth.

Context {nv : Nvmath} {assets : Assets} {dflt : Defaults}.

Lemma prefix_of_app {A : Type} (l new : list A) : prefix_of l (l ++ new).
Proof. now exists new. Qed.

Lemma prefix_of_same {A : Type} (l1 l2 : list A) : l2 = l1 -> prefix_of l1 l2.
Proof. intros ->. exists []. now rewrite app_nil_r. Qed.

Lemma prefix_of_size {A : Type} (l1 l2 : list A) : prefix_of l1 l2 -> size l1 <= size l2.
Proof. intros (l & ->). rewrite size_app. pose proof (size_nonneg l). lia. Qed.

Lemma textures_raytrace (cam : CameraManipulator) (s : HelloVulkan) :
  m_textures (exec (raytrace cam) s) = m_textures s.
Proof.
  rewrite exec_raytrace, exec_updateFrame. cbv zeta.
  destruct (camera_changed (stored_reference cam s) cam); reflexivity.
Qed.

Lemma registry_grows_op (o : Op) (s : HelloVulkan) :
  let s' := exec (run_op o) s in
  prefix_of (m_objModel s) (m_objModel s')
  /\ prefix_of (m_objInstance s) (m_objInstance s')
  /\ prefix_of (m_textures s) (m_textures s')
  /\ prefix_of (implMat (m_implObjects s)) (implMat (m_implObjects s')).
Proof.
  cbv zeta.
  destruct o as [filename xf | | | mat | | | | cam | |]; cbn [run_op].
  - destruct (members_loadModel filename xf s) as (Ht & Hio & (model & Hm) & Hi).
    rewrite Hm, Hi, Hio, Ht.
    destruct (textures_grow (ObjLoader.m_textures (ObjLoader_loadModel filename))
                (set_alloc (S (S (S (S (m_alloc s))))) s)) as (new & ->).
    repeat split; try apply prefix_of_app. now apply prefix_of_same.
  - repeat split; now apply prefix_of_same.
  - repeat split; now apply prefix_of_same.
  - repeat split; try (now apply prefix_of_same). apply prefix_of_app.
  - destruct (exec_createImplictBuffers s) as (-> & _).
    repeat split; try (now apply prefix_of_same).
    cbn. destruct (implMat (m_implObjects s)); [now exists [MaterialObj_default]|].
    now apply prefix_of_same.
  - repeat split; now apply prefix_of_same.
  - repeat split; now apply prefix_of_same.
  - destruct (members_raytrace cam s) as (-> & -> & ->). rewrite textures_raytrace.
    repeat split; now apply prefix_of_same.
  - repeat split; now apply prefix_of_same.
  - repeat split; now apply prefix_of_same.
Qed.

Lemma registry_grows (ops : list Op) : forall s,
  let s' := exec (run_ops ops) s in
  prefix_of (m_objModel s) (m_objModel s')
  /\ prefix_of (m_objInstance s) (m_objInstance s')
  /\ prefix_of (m_textures s) (m_textures s')
  /\ prefix_of (implMat (m_implObjects s)) (implMat (m_implObjects s')).
Proof.
  cbv zeta. induction ops as [|o ops IH]; intros s.
  - repeat split; now apply prefix_of_same.
  - unfold run_ops. rewrite exec_for_each_cons. fold (run_ops ops).
    destruct (registry_grows_op o s) as (H1 & H2 & H3 & H4).
    destruct (IH (exec (run_op o) s)) as (K1 & K2 & K3 & K4).
    repeat split; eapply prefix_of_trans; eauto.
Qed.

(** X3: the registry only grows: whatever sequence of calls is made, the
    model vector, the instance vector, the texture vector and the
    implicit-material vector found before are initial segments of the ones
    found after; no element is removed, replaced or reordered. *)
Theorem registry_append_only (ops : list Op) (s : HelloVulkan) :
  let s' := exec (run_ops ops) s in
  prefix_of (m_objModel s) (m_objModel s')
  /\ prefix_of (m_objInstance s) (m_objInstance s')
  /\ prefix_of (m_textures s) (m_textures s')
  /\ prefix_of (implMat (m_implObjects s)) (implMat (m_implObjects s')).
Proof. apply registry_grows. Qed.

Lemma aligned_run_op (o : Op) (s : HelloVulkan) :
  aligned s ->
  size (m_objModel (exec (run_op o) s)) <= Int.UINT32_MOD ->
  aligned (exec (run_op o) s).
Proof.
  intros Hal Hsize. pose proof (run_op_models o s) as H.
  destruct o as [filename xf | | | | | | | | |]; cbn [run_op] in *.
  2-10: destruct H as [Hm Hi]; unfold aligned; now rewrite Hm, Hi.
  destruct (members_loadModel filename xf s) as (_ & _ & (model & Hm) & Hi).
  unfold aligned in *. rewrite Hm, Hi in *. rewrite size_app in Hsize.
  change (size [model]) with 1 in Hsize.
  rewrite map_app, Hal, length_app, seq_app, map_app. cbn [length map seq objIndex Nat.add].
  pose proof (size_nonneg (m_objModel s)) as Hn.
  rewrite to_uint32_small by lia. reflexivity.
Qed.

(** X4: instances and models stay in step: starting from a registry in
    which instance k refers to model k (as the empty one), after any
    sequence of calls that leaves at most 2^32 models there is one instance
    per model and instance k has [objIndex] k. *)
Theorem instances_follow_models (ops : list Op) : forall s,
  aligned s ->
  size (m_objModel (exec (run_ops ops) s)) <= Int.UINT32_MOD ->
  let s' := exec (run_ops ops) s in
  length (m_objInstance s') = length (m_objModel s')
  /\ forall k inst, nth_error (m_objInstance s') k = Some inst -> objIndex inst = Z.of_nat k.
Proof.
  assert (Hrun : forall s, aligned s ->
            size (m_objModel (exec (run_ops ops) s)) <= Int.UINT32_MOD ->
            aligned (exec (run_ops ops) s)).
  { induction ops as [|o ops IH]; intros s Hal Hsize; [exact Hal|].
    unfold run_ops in *. rewrite exec_for_each_cons in *. fold (run_ops ops) in *.
    apply IH; [|exact Hsize]. apply aligned_run_op; [exact Hal|].
    destruct (registry_grows ops (exec (run_op o) s)) as (Hp & _).
    apply prefix_of_size in Hp. lia. }
  intros s Hal Hsize s'. specialize (Hrun s Hal Hsize). fold s' in Hrun.
  unfold aligned in Hrun. split.
  - apply (f_equal (@length Z)) in Hrun. now rewrite !length_map, length_seq in Hrun.
  - intros k inst Hk.
    apply (map_nth_error objIndex) in Hk. rewrite Hrun in Hk.
    assert (Hlt : (k < length (map Z.of_nat (seq 0 (length (m_objModel s')))))%nat).
    { apply nth_error_Some. rewrite Hk. discriminate. }
    rewrite length_map, length_seq in Hlt.
    rewrite (map_nth_error Z.of_nat k (seq 0 (length (m_objModel s'))) (d := k)) in Hk.
    + now injection Hk as <-.
    + rewrite nth_error_nth' with (d := 0%nat) by now rewrite length_seq.
      now rewrite seq_nth.
Qed.

End Growth.

(** ** The rasterizer loop (rasterize) *)

Section Rasterizer.

Context {nv : Nvmath} {assets : Assets} {dflt : Defaults}.


Lemma valid_model_of (s : HelloVulkan) :
  objIndex_valid s -> Forall (fun inst => model_of s inst <> None) (m_objInstance s).
Proof.
  unfold objIndex_valid. apply Forall_impl. intros inst H.
  unfold model_of. apply nth_error_Some. unfold size in H. lia.
Qed.


Lemma rasterize_from_none (insts : list ObjInstance) : forall (i : Z) (s : HelloVulkan),
  rasterize_from insts i s = None <-> Exists (fun inst => model_of s inst = None) insts.
Proof.
  induction insts as [|inst insts IH]; intros i s.
  - cbn. split; [discriminate | intros H; inversion H].
  - cbn [rasterize_from]. rewrite Exists_cons. unfold model_of at 1.
    destruct (nth_error (m_objModel s) (Z.to_nat (objIndex inst))) as [model|] eqn:E.
    + specialize (IH (i + 1)
        (set_pushConstants (mkObjPushConstants i (frame (m_pushConstants s))) s)).
      destruct (rasterize_from insts (i + 1) _) as [[s2 t]|]; split.
      * discriminate.
      * intros [H | H]; [discriminate|]. now apply IH in H.
      * intros _. right. now apply IH.
      * reflexivity.
    + split; [now left | reflexivity].
Qed.

(** X6: [rasterize] has no defined result exactly when some instance's
    [objIndex] lies outside the model vector; this never happens after a
    sequence of calls on a registry whose instances were valid. *)
Theorem rasterize_undefined_iff (s : HelloVulkan) :
  (rasterize s = None <-> Exists (fun inst => model_of s inst = None) (m_objInstance s))
  /\ (forall ops, objIndex_valid s -> rasterize (exec (run_ops ops) s) <> None).
Proof.
  assert (Hiff : forall s0, rasterize s0 = None
                   <-> Exists (fun inst => model_of s0 inst = None) (m_objInstance s0)).
  { intros s0. rewrite <- (rasterize_from_none (m_objInstance s0) 0 s0). unfold rasterize.
    destruct (rasterize_from (m_objInstance s0) 0 s0) as [[s' t]|];
      split; try discriminate; reflexivity. }
  split; [apply Hiff|].
  intros ops Hvalid Hnone. apply Hiff in Hnone.
  pose proof (valid_model_of _ (objIndex_valid_run_ops ops s Hvalid)) as Hall.
  apply Exists_exists in Hnone. destruct Hnone as (inst & Hin & Hno).
  rewrite Forall_forall in Hall. now apply (Hall inst Hin).
Qed.

End Rasterizer.

(** ** Frame accumulation over runs of ticks *)

Section Ticks.

Context {nv : Nvmath}.

Lemma all_dispatched_cons (p : HelloVulkan * list Call) (ticks : list (HelloVulkan * list Call)) :
  all_dispatched (p :: ticks) = dispatched_frames (snd p) ++ all_dispatched ticks.
Proof. reflexivity. Qed.

(** One tick from a counter that is at least -1 and below [INT_MAX]. *)
Lemma raytrace_tick (cam : CameraManipulator) (s : HelloVulkan) :
  -1 <= frame_of s -> frame_of s < Int.INT_MAX ->
  let s' := exec (raytrace cam) s in
  (frame_of s' = 0 \/ frame_of s' = frame_of s + 1)
  /\ 0 <= frame_of s'
  /\ m_maxFrames s' = m_maxFrames s
  /\ dispatched_frames (trace (raytrace cam) s)
     = (if frame_of s' >=? m_maxFrames s then [] else [frame_of s']).
Proof.
  intros Hlo Hhi. cbv zeta.
  rewrite dispatched_frames_raytrace, exec_raytrace. cbv zeta.
  destruct (updateFrame_members cam s) as (-> & _).
  rewrite frame_of_updateFrame.
  destruct (camera_changed (stored_reference cam s) cam).
  - change (Int.incr (-1)) with 0. repeat split; lia.
  - rewrite incr_below_max;
      [| unfold Int.in_range, Int.INT_MIN, Int.INT_MAX in *; lia | exact Hhi].
    repeat split; lia.
Qed.

(** X7: the ray tracer is never handed a frame number outside
    [0, m_maxFrames): over any run of ticks, whatever the cameras, that
    starts with a counter of at least -1 and stays inside the [int] range,
    every dispatched frame number f has 0 <= f < m_maxFrames; with a budget
    of 0 or less nothing is ever dispatched. *)
Theorem dispatched_within_budget (cams : list CameraManipulator) : forall s : HelloVulkan,
  -1 <= frame_of s ->
  frame_of s + Z.of_nat (length cams) <= Int.INT_MAX ->
  Forall (fun f => 0 <= f < m_maxFrames s) (all_dispatched (raytrace_ticks cams s))
  /\ (m_maxFrames s <= 0 -> all_dispatched (raytrace_ticks cams s) = []).
Proof.
  assert (Hall : forall s, -1 <= frame_of s ->
            frame_of s + Z.of_nat (length cams) <= Int.INT_MAX ->
            Forall (fun f => 0 <= f < m_maxFrames s) (all_dispatched (raytrace_ticks cams s))).
  { induction cams as [|cam cams IH]; intros s Hlo Hhi; [constructor|].
    cbn [raytrace_ticks length] in *. rewrite all_dispatched_cons. cbn [snd].
    destruct (raytrace_tick cam s Hlo ltac:(lia)) as (Hf & H0 & Hm & Hd).
    apply Forall_app. split.
    - rewrite Hd. destruct (Z.geb_spec (frame_of (exec (raytrace cam) s)) (m_maxFrames s));
        [constructor | constructor; [lia | constructor]].
    - rewrite <- Hm. apply IH; lia. }
  intros s Hlo Hhi. split; [now apply Hall|].
  intros Hbudget. specialize (Hall s Hlo Hhi).
  destruct (all_dispatched (raytrace_ticks cams s)) as [|f l]; [reflexivity|].
  apply Forall_inv in Hall. lia.
Qed.

(** X8: a resize restarts the accumulation: [onResize] recreates the
    offscreen target, updates the two descriptor sets and resets the
    counter to -1; the next [raytrace] tick ends with frame 0 whatever the
    camera and whatever the counter was, and hands frame 0 to the ray tracer
    when the budget is positive. *)
Theorem onResize_restarts (cam : CameraManipulator) (s : HelloVulkan) :
  let s1 := exec onResize s in
  trace onResize s
  = [ OffscreenCreateFramebuffer; OffscreenUpdateDescriptorSet;
      RaytracerUpdateRtDescriptorSet; Enter_resetFrame ]
  /\ frame_of s1 = -1
  /\ frame_of (exec (raytrace cam) s1) = 0
  /\ dispatched_frames (trace (raytrace cam) s1) = (if 0 <? m_maxFrames s then [0] else []).
Proof.
  intros s1. split; [reflexivity|]. split; [reflexivity|].
  assert (Hf : frame_of (exec (updateFrame cam) s1) = 0).
  { rewrite frame_of_updateFrame.
    destruct (camera_changed (stored_reference cam s1) cam); reflexivity. }
  split; [now rewrite exec_raytrace|].
  rewrite dispatched_frames_raytrace. cbv zeta.
  destruct (updateFrame_members cam s1) as (-> & _). rewrite Hf.
  change (m_maxFrames s1) with (m_maxFrames s).
  destruct (Z.geb_spec 0 (m_maxFrames s)); destruct (Z.ltb_spec 0 (m_maxFrames s));
    try lia; reflexivity.
Qed.

Lemma steady_tick (cam : CameraManipulator) (s : HelloVulkan) :
  settled cam s -> -1 <= frame_of s -> frame_of s < Int.INT_MAX ->
  let s' := exec (raytrace cam) s in
  settled cam s'
  /\ frame_of s' = frame_of s + 1
  /\ m_maxFrames s' = m_maxFrames s
  /\ dispatched_frames (trace (raytrace cam) s)
     = (if frame_of s + 1 >=? m_maxFrames s then [] else [frame_of s + 1]).
Proof.
  intros Hset Hlo Hhi. cbv zeta.
  rewrite dispatched_frames_raytrace, exec_raytrace. cbv zeta.
  destruct (updateFrame_members cam s) as (-> & _).
  rewrite frame_of_updateFrame, (settled_stored _ _ Hset).
  rewrite incr_below_max;
    [| unfold Int.in_range, Int.INT_MIN, Int.INT_MAX in *; lia | exact Hhi].
  repeat split. now apply settled_step.
Qed.

(** X9: under a camera that stays unchanged, n ticks dispatch exactly the
    frame numbers that follow the counter, in increasing order, up to
    [m_maxFrames - 1] and no more than n of them; from a reset counter (-1)
    these are the frames 0, 1, ..., min(n, m_maxFrames) - 1. *)
Theorem steady_camera_dispatches (cam : CameraManipulator) (n : nat) : forall s : HelloVulkan,
  settled cam s ->
  -1 <= frame_of s ->
  frame_of s + Z.of_nat n <= Int.INT_MAX ->
  all_dispatched (raytrace_ticks (repeat cam n) s)
  = map Z.of_nat (seq (Z.to_nat (frame_of s + 1))
                      (Nat.min n (Z.to_nat (m_maxFrames s - (frame_of s + 1))))).
Proof.
  induction n as [|n IH]; intros s Hset Hlo Hhi; [reflexivity|].
  cbn [repeat raytrace_ticks]. rewrite all_dispatched_cons. cbn [snd].
  destruct (steady_tick cam s Hset Hlo ltac:(lia)) as (Hset' & Hf & Hm & Hd).
  rewrite Hd, IH, Hf, Hm by (try assumption; lia).
  destruct (Z.geb_spec (frame_of s + 1) (m_maxFrames s)) as [Hge | Hlt].
  - replace (Z.to_nat (m_maxFrames s - (frame_of s + 1))) with 0%nat by lia.
    replace (Z.to_nat (m_maxFrames s - (frame_of s + 1 + 1))) with 0%nat by lia.
    now rewrite !Nat.min_0_r.
  - replace (Z.to_nat (m_maxFrames s - (frame_of s + 1)))
      with (S (Z.to_nat (m_maxFrames s - (frame_of s + 1 + 1)))) by lia.
    rewrite <- Nat.succ_min_distr. cbn [seq map app].
    rewrite Z2Nat.id by lia.
    now replace (S (Z.to_nat (frame_of s + 1))) with (Z.to_nat (frame_of s + 1 + 1)) by lia.
Qed.

Lemma settled_no_reset (cam : CameraManipulator) (n : nat) : forall s : HelloVulkan,
  settled cam s ->
  Forall (fun p => resets (snd p) = false) (updateFrame_ticks (repeat cam n) s).
Proof.
  induction n as [|n IH]; intros s Hset; [constructor|].
  cbn [repeat updateFrame_ticks]. constructor.
  - cbn [snd]. rewrite resets_updateFrame. now apply settled_stored.
  - apply IH. now apply settled_step.
Qed.

(** X10: repeating a camera state whose field of view is not a NaN resets
    at most once: from any state, in a run of ticks under the same camera
    no tick after the first enters [resetFrame]. *)
Theorem repeated_camera_resets_once (cam : CameraManipulator) (n : nat) (s : HelloVulkan) :
  f32_isnan (getFov cam) = false ->
  Forall (fun p => resets (snd p) = false) (tl (updateFrame_ticks (repeat cam n) s)).
Proof.
  intros Hnan. destruct n as [|n]; [constructor|].
  cbn [repeat updateFrame_ticks tl].
  apply settled_no_reset. now apply settled_after_tick.
Qed.

Lemma f32_ne_nan (a b : float32) : f32_isnan b = true -> f32_ne a b = true.
Proof.
  intros H. unfold f32_ne, f32_eq. rewrite H.
  now destruct (f32_isnan a).
Qed.

Lemma resets_app (t1 t2 : list Call) : resets (t1 ++ t2) = resets t1 || resets t2.
Proof. apply existsb_app. Qed.

(** X11: a field of view that is a NaN defeats the accumulation: on every
    tick whose camera has a NaN field of view, whatever the state,
    [updateFrame] resets, the tick ends with frame 0, and with a positive
    budget [raytrace] dispatches frame 0 again: the budget is never
    reached. *)
Theorem nan_fov_never_accumulates (cams : list CameraManipulator) : forall s : HelloVulkan,
  Forall (fun cam => f32_isnan (getFov cam) = true) cams ->
  Forall (fun p => resets (snd p) = true
                   /\ frame_of (fst p) = 0
                   /\ dispatched_frames (snd p) = (if 0 <? m_maxFrames s then [0] else []))
         (raytrace_ticks cams s).
Proof.
  induction cams as [|cam cams IH]; intros s Hnan; [constructor|].
  apply Forall_cons_iff in Hnan. destruct Hnan as [Hcam Hnan].
  cbn [raytrace_ticks].
  assert (Hch : camera_changed (stored_reference cam s) cam = true).
  { unfold camera_changed. rewrite (f32_ne_nan _ _ Hcam). apply orb_true_r. }
  assert (Hf : frame_of (exec (updateFrame cam) s) = 0).
  { rewrite frame_of_updateFrame, Hch. reflexivity. }
  destruct (updateFrame_members cam s) as (Hm & _).
  constructor.
  - cbn [fst snd]. rewrite exec_raytrace, dispatched_frames_raytrace, trace_raytrace.
    cbv zeta. rewrite resets_app, resets_updateFrame, Hch, Hf, Hm.
    repeat split.
    destruct (Z.geb_spec 0 (m_maxFrames s)); destruct (Z.ltb_spec 0 (m_maxFrames s));
      try lia; reflexivity.
  - rewrite exec_raytrace, <- Hm. apply IH. exact Hnan.
Qed.

End Ticks.

(** ** Teardown and buffer creation against the descriptor set *)

Section Buffers.

Context {nv : Nvmath} {assets : Assets} {dflt : Defaults}.






(** X13: a second [createImplictBuffers] adds no entry to either vector,
    creates two more buffers, whose handles replace the ones stored by the
    first call, and destroys nothing. *)
Theorem createImplictBuffers_again (s : HelloVulkan) :
  let s1 := exec createImplictBuffers s in
  let s2 := exec createImplictBuffers s1 in
  objImpl (m_implObjects s2) = objImpl (m_implObjects s1)
  /\ implMat (m_implObjects s2) = implMat (m_implObjects s1)
  /\ created_buffers (trace createImplictBuffers s1)
     = [buffer (implBuf (m_implObjects s2)); buffer (implMatBuf (m_implObjects s2))]
  /\ destroyed_handles (trace createImplictBuffers s1) = []
  /\ buffer (implBuf (m_implObjects s2)) <> buffer (implBuf (m_implObjects s1))
  /\ buffer (implMatBuf (m_implObjects s2)) <> buffer (implMatBuf (m_implObjects s1)).
Proof.
  intros s1 s2. subst s2.
  destruct (exec_createImplictBuffers s1) as (-> & ->).
  subst s1. destruct (exec_createImplictBuffers s) as (-> & _).
  cbv zeta. cbn [m_implObjects set_implObjects set_alloc objImpl implMat implBuf
                 implMatBuf buffer m_alloc].
  destruct (objImpl (m_implObjects s)), (implMat (m_implObjects s));
    repeat split; cbn; lia.
Qed.


Lemma instances_load_scene (scene : list (string * mat4f)) : forall s,
  length (m_objInstance (exec (load_scene scene) s))
  = (length (m_objInstance s) + length scene)%nat.
Proof.
  induction scene as [|e scene IH]; intros s.
  - cbn. lia.
  - unfold load_scene in *. rewrite exec_for_each_cons, IH.
    destruct (members_loadModel (fst e) (snd e) s) as (_ & _ & _ & ->).
    rewrite length_app. cbn. lia.
Qed.

(** X15: [createSceneDescriptionBuffer] creates one storage buffer from the
    whole instance vector, waits, releases the staging memory, and stores
    the buffer where [updateDescriptorSet] takes binding 2 from; after a
    scene of k meshes is loaded into an object without instances the buffer
    holds k entries, and for an empty instance vector it is created from
    zero elements: no placeholder is inserted here. *)
Theorem createSceneDescriptionBuffer_entries (scene : list (string * mat4f))
    (s : HelloVulkan) :
  let s1 := exec createSceneDescriptionBuffer s in
  (exists b,
      trace createSceneDescriptionBuffer s
      = [ AllocCreateBuffer b (length (m_objInstance s)) Vk.BUFFER_USAGE_STORAGE_BUFFER_BIT;
          SubmitAndWait; FinalizeAndReleaseStaging ]
      /\ m_sceneDesc s1 = mkBuffer b
      /\ array_at 2 (descriptor_requests s1) = Some [whole (mkBuffer b)]
      /\ s1 = set_sceneDesc (mkBuffer b) (set_alloc (S (m_alloc s)) s))
  /\ (m_objInstance s = [] ->
      (exists b,
          trace createSceneDescriptionBuffer s
          = [ AllocCreateBuffer b 0%nat Vk.BUFFER_USAGE_STORAGE_BUFFER_BIT;
              SubmitAndWait; FinalizeAndReleaseStaging ])
      /\ exists b,
           trace createSceneDescriptionBuffer (exec (load_scene scene) s)
           = [ AllocCreateBuffer b (length scene) Vk.BUFFER_USAGE_STORAGE_BUFFER_BIT;
               SubmitAndWait; FinalizeAndReleaseStaging ]).
Proof.
  intros s1. split.
  - exists (m_alloc s). repeat split.
  - intros Hempty. split.
    { exists (m_alloc s). unfold createSceneDescriptionBuffer, trace, bind, gets.
      cbn. now rewrite Hempty. }
    exists (m_alloc (exec (load_scene scene) s)).
    pose proof (instances_load_scene scene s) as Hlen. rewrite Hempty in Hlen.
    cbn [length Nat.add] in Hlen. rewrite <- Hlen. reflexivity.
Qed.

End Buffers.

(** ** Declared bindings against written bindings *)

Lemma make_declared (binds : list LayoutBinding) (set : Handle) (r : WriteRequest) (c : Z) :
  option_map descriptorCount (find_binding binds (req_binding r)) = Some c ->
  dstBinding (make binds set r) = req_binding r /\ dstSet (make binds set r) = set.
Proof.
  intros H. unfold make, makeWrite, makeWriteArray.
  destruct (find_binding binds (req_binding r)); [|discriminate].
  destruct (req_is_array r); split; reflexivity.
Qed.

(** X16: once [createDescriptorSetLayout] has declared the bindings of an
    object that had none, [updateDescriptorSet] writes every declared
    binding exactly once and no other: the bindings 0 to 7 are declared,
    the eight writes name the bindings 0, 2, 1, 4, 5, 6, 3, 7, and all of
    them go to the descriptor set that the layout creation allocated. *)
Theorem writes_cover_layout (s : HelloVulkan) :
  m_descSetLayoutBind s = [] ->
  let s' := exec createDescriptorSetLayout s in
  let ws := issued_writes (trace updateDescriptorSet s') in
  map binding (m_descSetLayoutBind s') = [0; 1; 2; 3; 4; 5; 6; 7]
  /\ map dstBinding ws = [0; 2; 1; 4; 5; 6; 3; 7]
  /\ (forall b, In b (map dstBinding ws) <-> In b (map binding (m_descSetLayoutBind s')))
  /\ NoDup (map dstBinding ws)
  /\ Forall (fun w => dstSet w = m_descSet s') ws
  /\ In (AllocateDescriptorSet (m_descSet s')) (trace createDescriptorSetLayout s).
Proof.
  intros Hbinds s' ws.
  destruct (exec_createDescriptorSetLayout s) as (Hb & _). cbv zeta in Hb.
  fold s' in Hb. rewrite Hbinds in Hb. cbn [map app] in Hb.
  assert (Hdecl : map binding (m_descSetLayoutBind s') = [0; 1; 2; 3; 4; 5; 6; 7]).
  { apply (f_equal (map fst)) in Hb. rewrite map_map in Hb. exact Hb. }
  assert (Hreq : forall r, In r (descriptor_requests s') ->
            dstBinding (make (m_descSetLayoutBind s') (m_descSet s') r) = req_binding r
            /\ dstSet (make (m_descSetLayoutBind s') (m_descSet s') r) = m_descSet s').
  { intros r Hin. unfold descriptor_requests in Hin. cbn [In] in Hin.
    destruct Hin as [<-|[<-|[<-|[<-|[<-|[<-|[<-|[<-|[]]]]]]]]];
      (eapply make_declared; rewrite (find_binding_counts _ _ _ Hb);
       cbn [req_binding find fst snd Z.eqb Pos.eqb option_map]; reflexivity). }
  assert (Hws : map dstBinding ws = [0; 2; 1; 4; 5; 6; 3; 7]).
  { unfold ws. rewrite issued_updateDescriptorSet. unfold descriptor_writes.
    rewrite map_map.
    rewrite (map_ext_in _ req_binding) by (intros r Hin; apply (Hreq r Hin)).
    reflexivity. }
  split; [exact Hdecl|]. split; [exact Hws|]. split; [|split; [|split]].
  - intros b. rewrite Hws, Hdecl. cbn [In]. intuition.
  - rewrite Hws. repeat constructor; cbn [In]; intuition discriminate.
  - unfold ws. rewrite issued_updateDescriptorSet. unfold descriptor_writes.
    apply Forall_map, Forall_forall. intros r Hin. apply (Hreq r Hin).
  - unfold s'. cbn. tauto.
Qed.

(** ** Staging memory *)

Section StagingDiscipline.

Context {nv : Nvmath} {assets : Assets} {dflt : Defaults}.

Lemma staging_run_app (t1 t2 : list Call) : forall st,
  staging_run st (t1 ++ t2)
  = match staging_run st t1 with
    | Some st' => staging_run st' t2
    | None => None
    end.
Proof.
  induction t1 as [|c t1 IH]; intros st; [reflexivity|].
  cbn [app staging_run]. destruct (staging_step st c); [apply IH | reflexivity].
Qed.

Lemma trace_upload_texture_file (texture : string) (s : HelloVulkan) :
  staging_run Recording (trace (upload_texture_file texture) s) = Some Recording.
Proof.
  unfold upload_texture_file.
  destruct (stbi_load (findFile ("media/textures/" ++ texture))); reflexivity.
Qed.

Lemma staging_upload_files (files : list string) : forall s,
  staging_run Recording (trace (for_each files upload_texture_file) s) = Some Recording.
Proof.
  induction files as [|file files IH]; intros s; [reflexivity|].
  rewrite trace_for_each_cons, staging_run_app, trace_upload_texture_file. apply IH.
Qed.

Lemma staging_createTextureImages (files : list string) (s : HelloVulkan) :
  staging_run Recording (trace (createTextureImages files) s) = Some Recording.
Proof.
  unfold createTextureImages. rewrite trace_bind.
  change (trace (gets m_textures) s) with (@nil Call).
  change (exec (gets m_textures) s) with s.
  change (result (gets m_textures) s) with (m_textures s). cbn [app].
  destruct files as [|file files]; [destruct (m_textures s)|].
  - reflexivity.
  - reflexivity.
  - apply staging_upload_files.
Qed.

Lemma trace_loadModel (filename : string) (xf : mat4f) (s : HelloVulkan) :
  exists c1 c2 c3 c4 s4,
    trace (loadModel filename xf) s
    = [c1; c2; c3; c4]
      ++ trace (createTextureImages (ObjLoader.m_textures (ObjLoader_loadModel filename))) s4
      ++ [SubmitAndWait; FinalizeAndReleaseStaging]
    /\ staging_run Clean [c1; c2; c3; c4] = Some Recording.
Proof.
  unfold loadModel, trace, bind, gets, modify, alloc_createBuffer, fresh, call, ret.
  cbn -[createTextureImages Int.to_uint32 size Z.lor].
  destruct (createTextureImages _ _) as [[u s1] t1] eqn:E.
  eexists _, _, _, _, _. rewrite E. cbn [snd].
  split; [cbn [app]; reflexivity | reflexivity].
Qed.

Lemma staging_run_op (o : Op) (s : HelloVulkan) :
  staging_run Clean (trace (run_op o) s) = Some Clean.
Proof.
  destruct o as [filename xf | | | | | | | cam | |]; cbn [run_op]; try reflexivity.
  - destruct (trace_loadModel filename xf s) as (c1 & c2 & c3 & c4 & s4 & -> & H4).
    rewrite staging_run_app, H4, staging_run_app, staging_createTextureImages.
    reflexivity.
  - destruct (exec_createImplictBuffers s) as (_ & ->). reflexivity.
  - rewrite trace_raytrace, trace_updateFrame. cbv zeta.
    destruct (camera_changed (stored_reference cam s) cam);
      destruct (_ >=? _); reflexivity.
Qed.

(** X17: staging memory is never released under a pending upload: in
    every sequence of calls, each [FinalizeAndReleaseStaging] comes after
    the uploads recorded so far have been submitted and waited for, and
    every upload is followed by a wait and a release before the sequence
    ends; the same holds for [createSceneDescriptionBuffer]. *)
Theorem staging_released_after_wait (ops : list Op) (s : HelloVulkan) :
  staging_run Clean (trace (run_ops ops) s) = Some Clean
  /\ staging_run Clean (trace createSceneDescriptionBuffer s) = Some Clean.
Proof.
  split; [|reflexivity].
  revert s. induction ops as [|o ops IH]; intros s; [reflexivity|].
  unfold run_ops. rewrite trace_for_each_cons, staging_run_app, staging_run_op.
  apply IH.
Qed.

End StagingDiscipline.

(** ** The camera uniform buffer *)


(** ** What [loadModel] uploads *)

Section Uploads.

Context {nv : Nvmath} {assets : Assets} {dflt : Defaults}.

Lemma load_scene_members (scene : list (string * mat4f)) : forall s,
  let s' := exec (load_scene scene) s in
  m_descSetLayoutBind s' = m_descSetLayoutBind s
  /\ m_descSet s' = m_descSet s
  /\ length (m_objModel s') = (length (m_objModel s) + length scene)%nat.
Proof.
  cbv zeta. induction scene as [|e scene IH]; intros s.
  - cbn. repeat split. lia.
  - unfold load_scene in *. rewrite exec_for_each_cons.
    destruct (IH (exec (loadModel (fst e) (snd e)) s)) as (-> & -> & ->).
    pose proof (exec_loadModel (fst e) (snd e) s) as He. cbv zeta in He. rewrite He.
    destruct (createTextureImages_frame
      (ObjLoader.m_textures (ObjLoader_loadModel (fst e)))
      (set_alloc (S (S (S (S (m_alloc s))))) s)) as (tx & al & ->).
    cbn [m_descSetLayoutBind m_descSet m_objModel set_objInstance set_objModel
         set_textures set_alloc].
    repeat split. rewrite length_app. cbn. lia.
Qed.

(** X19: [loadModel] creates the four buffers of the new model, in the
    order vertices, indices, materials, material indices, each from as
    many elements as the loader holds; the four handles differ; the
    model's [nbIndices] and [nbVertices] are these element counts (as
    [uint32_t]); the vertex and index buffers carry the storage,
    device-address and acceleration-structure-input usage bits, the two
    material buffers only the storage bit. *)
Theorem loadModel_uploads (filename : string) (xf : mat4f) (s : HelloVulkan) :
  let loader := ObjLoader_loadModel filename in
  let rt := Z.lor (Z.lor Vk.BUFFER_USAGE_STORAGE_BUFFER_BIT
                         Vk.BUFFER_USAGE_SHADER_DEVICE_ADDRESS_BIT)
                  Vk.BUFFER_USAGE_ACCELERATION_STRUCTURE_BUILD_INPUT_READ_ONLY_BIT_KHR in
  exists model uv ui um umi rest,
    m_objModel (exec (loadModel filename xf) s) = m_objModel s ++ [model]
    /\ trace (loadModel filename xf) s
       = [ AllocCreateBuffer (buffer (vertexBuffer model))
             (length (ObjLoader.m_vertices loader)) uv;
           AllocCreateBuffer (buffer (indexBuffer model))
             (length (ObjLoader.m_indices loader)) ui;
           AllocCreateBuffer (buffer (matColorBuffer model))
             (length (ObjLoader.m_materials loader)) um;
           AllocCreateBuffer (buffer (matIndexBuffer model))
             (length (ObjLoader.m_matIndx loader)) umi ] ++ rest
    /\ NoDup [ buffer (vertexBuffer model); buffer (indexBuffer model);
               buffer (matColorBuffer model); buffer (matIndexBuffer model) ]
    /\ nbIndices model = Int.to_uint32 (size (ObjLoader.m_indices loader))
    /\ nbVertices model = Int.to_uint32 (size (ObjLoader.m_vertices loader))
    /\ (size (ObjLoader.m_indices loader) < Int.UINT32_MOD ->
        nbIndices model = size (ObjLoader.m_indices loader))
    /\ Z.land uv rt = rt /\ Z.land ui rt = rt
    /\ Z.land uv Vk.BUFFER_USAGE_VERTEX_BUFFER_BIT = Vk.BUFFER_USAGE_VERTEX_BUFFER_BIT
    /\ Z.land ui Vk.BUFFER_USAGE_INDEX_BUFFER_BIT = Vk.BUFFER_USAGE_INDEX_BUFFER_BIT
    /\ um = Vk.BUFFER_USAGE_STORAGE_BUFFER_BIT /\ umi = Vk.BUFFER_USAGE_STORAGE_BUFFER_BIT.
Proof.
  intros loader rt.
  pose proof (exec_loadModel filename xf s) as He. cbv zeta in He.
  destruct (createTextureImages_frame
    (ObjLoader.m_textures (ObjLoader_loadModel filename))
    (set_alloc (S (S (S (S (m_alloc s))))) s)) as (tx & al & Hfr).
  rewrite Hfr in He.
  assert (Ht : exists rest,
    trace (loadModel filename xf) s
    = [ AllocCreateBuffer (m_alloc s) (length (ObjLoader.m_vertices loader))
          (Z.lor Vk.BUFFER_USAGE_VERTEX_BUFFER_BIT rt);
        AllocCreateBuffer (S (m_alloc s)) (length (ObjLoader.m_indices loader))
          (Z.lor Vk.BUFFER_USAGE_INDEX_BUFFER_BIT rt);
        AllocCreateBuffer (S (S (m_alloc s)))
          (length (map srgb_to_linear (ObjLoader.m_materials loader)))
          Vk.BUFFER_USAGE_STORAGE_BUFFER_BIT;
        AllocCreateBuffer (S (S (S (m_alloc s)))) (length (ObjLoader.m_matIndx loader))
          Vk.BUFFER_USAGE_STORAGE_BUFFER_BIT ] ++ rest).
  { unfold loadModel, trace, bind, gets, modify, alloc_createBuffer, fresh, call, ret.
    cbn -[createTextureImages Int.to_uint32 size Z.lor].
    destruct (createTextureImages _ _) as [[u s1] t1]. cbn [snd app].
    eexists. reflexivity. }
  destruct Ht as (rest & Ht). rewrite length_map in Ht.
  eexists _, _, _, _, _, rest. rewrite He.
  split; [reflexivity|]. split; [exact Ht|].
  cbn [vertexBuffer indexBuffer matColorBuffer matIndexBuffer buffer nbIndices nbVertices].
  split; [repeat constructor; cbn [In]; lia|].
  split; [reflexivity|]. split; [reflexivity|].
  split; [intros Hlt; apply to_uint32_small; pose proof (size_nonneg (ObjLoader.m_indices loader)); lia|].
  repeat split.
Qed.

(** X20: models loaded after the layout was created make the write of
    binding 1 disagree with its declaration: with N models when
    [createDescriptorSetLayout] runs on an object without bindings and k >=
    1 meshes loaded afterwards, [updateDescriptorSet] issues for binding 1
    a write whose count is N + 1 and whose array has N + k + 1 entries. *)
Theorem models_after_layout_mismatch (scene : list (string * mat4f)) (s : HelloVulkan) :
  m_descSetLayoutBind s = [] ->
  scene <> [] ->
  size (m_objModel s) + 1 < Int.UINT32_MOD ->
  let s' := exec (createDescriptorSetLayout ;; load_scene scene) s in
  exists w,
    nth_error (issued_writes (trace updateDescriptorSet s')) 2 = Some w
    /\ dstBinding w = 1
    /\ writeCount w = size (m_objModel s) + 1
    /\ size (pInfo w) = size (m_objModel s) + Z.of_nat (length scene) + 1
    /\ length_matches w = false.
Proof.
  intros Hbinds Hscene Hsmall s'.
  destruct (exec_createDescriptorSetLayout s) as (Hb & Hm & _). cbv zeta in Hb.
  rewrite Hbinds in Hb. cbn [map app] in Hb.
  pose proof (size_nonneg (m_objModel s)) as Hn.
  rewrite (to_uint32_small (size (m_objModel s))) in Hb by lia.
  replace (Int.uadd32 (size (m_objModel s)) 1) with (size (m_objModel s) + 1) in Hb
    by (unfold Int.uadd32; rewrite Z.mod_small; lia).
  destruct (load_scene_members scene (exec createDescriptorSetLayout s)) as (Hl & Hd & Hlen).
  assert (Hs' : s' = exec (load_scene scene) (exec createDescriptorSetLayout s)).
  { unfold s'. now rewrite exec_bind. }
  rewrite <- Hs' in Hl, Hd, Hlen. rewrite Hm in Hlen.
  rewrite issued_updateDescriptorSet. unfold descriptor_writes, descriptor_requests.
  rewrite dbi_of_models_map. cbn [map nth_error dbiMat]. eexists. split; [reflexivity|].
  assert (Hfind : option_map descriptorCount (find_binding (m_descSetLayoutBind s') 1)
                  = Some (size (m_objModel s) + 1)).
  { rewrite Hl, (find_binding_counts _ _ _ Hb). reflexivity. }
  unfold length_matches, make, makeWriteArray. cbn [req_is_array req_binding req_infos].
  destruct (find_binding (m_descSetLayoutBind s') 1) as [lb|]; [|discriminate].
  injection Hfind as Hcount. cbn [dstBinding writeCount pInfo].
  assert (Hsize : size (map (fun m => whole (matColorBuffer m)) (m_objModel s')
                        ++ [whole (implMatBuf (m_implObjects s'))])
                  = size (m_objModel s) + Z.of_nat (length scene) + 1).
  { unfold size. rewrite length_app, length_map, Hlen. cbn [length]. lia. }
  rewrite Hsize, Hcount. repeat split.
  apply Z.eqb_neq. destruct scene; [contradiction|]. cbn [length]. lia.
Qed.

End Uploads.

(** * The theorems on sample data *)

Import Sample.

(** The sample camera, compared with the reference its first tick stored,
    enters no reset. *)
Lemma updateFrame_reset_iff_witness :
  (stored_reference camera after_first_tick = mkRefCamera (getMatrix camera) (getFov camera)
   /\ f32_isnan (getFov camera) = false)
  /\ resets (trace (updateFrame camera) after_first_tick) = false.
Proof.
  split; [split; reflexivity|].
  apply (proj2 (proj2 (updateFrame_reset_iff camera after_first_tick))); reflexivity.
Defined.

(** C2 fails as stated: the camera state is byte for byte the stored
    reference, its field of view is a NaN, and [updateFrame] enters
    [resetFrame]. *)
Lemma updateFrame_resets_on_identical_nan :
  stored_reference camera_nan after_first_tick_nan
  = mkRefCamera (getMatrix camera_nan) (getFov camera_nan)
  /\ mat4f_bytes (refCamMatrix (stored_reference camera_nan after_first_tick_nan))
     = mat4f_bytes (getMatrix camera_nan)
  /\ f32_bytes (refFov (stored_reference camera_nan after_first_tick_nan))
     = f32_bytes (getFov camera_nan)
  /\ resets (trace (updateFrame camera_nan) after_first_tick_nan) = true.
Proof. repeat split. Qed.

(** Tick 101 of the 200-tick scenario on the sample object. *)
Lemma raytrace_frame_budget_witness :
  (m_maxFrames (fresh_object 0 100) = 100
   /\ (frame_of (fresh_object 0 100) = -1
       \/ camera_changed (stored_reference camera (fresh_object 0 100)) camera = true)
   /\ camera_changed (mkRefCamera (getMatrix camera) (getFov camera)) camera = false
   /\ (1 <= 101 <= 200)%nat)
  /\ exists sk tk,
      nth_error (raytrace_ticks (repeat camera 200%nat) (fresh_object 0 100)) (101 - 1)
      = Some (sk, tk)
      /\ frame_of sk = Z.of_nat 101 - 1
      /\ dispatched_frames tk = (if (101 <=? 100)%nat then [Z.of_nat 101 - 1] else [])
      /\ option_map (fun r => draws (snd r)) (rasterize sk)
         = option_map (fun r => draws (snd r)) (rasterize (fresh_object 0 100)).
Proof.
  split.
  - split; [reflexivity|]. split; [right; reflexivity|]. split; [reflexivity | lia].
  - apply (raytrace_frame_budget camera (fresh_object 0 100));
      [reflexivity | right; reflexivity | reflexivity | lia].
Defined.

(** The three parts of C4 on the sample object: a steady tick, the first
    tick, and two steady ticks in a row. *)
Lemma updateFrame_counter_witness :
  ((camera_changed (stored_reference camera after_first_tick) camera = false
    /\ Int.in_range (frame_of after_first_tick)
    /\ frame_of after_first_tick < Int.INT_MAX)
   /\ frame_of (exec (updateFrame camera) after_first_tick) = frame_of after_first_tick + 1)
  /\ (camera_changed (stored_reference camera (fresh_object 0 100)) camera = true
      /\ frame_of (exec (updateFrame camera) (fresh_object 0 100)) = 0)
  /\ ((Int.in_range (frame_of after_first_tick)
       /\ frame_of after_first_tick + Z.of_nat (length [camera; camera]) <= Int.INT_MAX
       /\ forall p, In p (updateFrame_ticks [camera; camera] after_first_tick) ->
                    resets (snd p) = false)
      /\ StronglySorted Z.le
           (frame_of after_first_tick
            :: map (fun p => frame_of (fst p))
                 (updateFrame_ticks [camera; camera] after_first_tick))).
Proof.
  assert (Hrange : Int.in_range (frame_of after_first_tick)).
  { change (frame_of after_first_tick) with 0.
    unfold Int.in_range, Int.INT_MIN, Int.INT_MAX. lia. }
  assert (Hno : forall p, In p (updateFrame_ticks [camera; camera] after_first_tick) ->
                          resets (snd p) = false).
  { intros p [<- | [<- | []]]; reflexivity. }
  split; [|split].
  - assert (Hlt : frame_of after_first_tick < Int.INT_MAX).
    { change (frame_of after_first_tick) with 0. unfold Int.INT_MAX. lia. }
    split; [split; [reflexivity | split; [exact Hrange | exact Hlt]]|].
    apply (proj1 (updateFrame_counter camera after_first_tick));
      [reflexivity | exact Hrange | exact Hlt].
  - split; [reflexivity|].
    apply (proj1 (proj2 (updateFrame_counter camera (fresh_object 0 100)))). reflexivity.
  - assert (Hmax : frame_of after_first_tick + Z.of_nat (length [camera; camera])
                   <= Int.INT_MAX).
    { change (frame_of after_first_tick) with 0. unfold Int.INT_MAX. cbn. lia. }
    split; [split; [exact Hrange | split; [exact Hmax | exact Hno]]|].
    apply (proj2 (proj2 (updateFrame_counter camera after_first_tick)));
      [exact Hrange | exact Hmax | exact Hno].
Defined.

(** One mesh without texture: the placeholder is the only texture. *)
Lemma placeholder_texture_witness :
  (m_textures (fresh_object 0 100) = []
   /\ [("cube.obj"%string, mat4f_identity)] <> []
   /\ forall e, In e [("cube.obj"%string, mat4f_identity)] ->
                ObjLoader.m_textures (ObjLoader_loadModel (fst e)) = [])
  /\ exists t,
      m_textures (exec (load_scene [("cube.obj"%string, mat4f_identity)]) (fresh_object 0 100))
      = [t]
      /\ extent_width t = 1 /\ extent_height t = 1
      /\ texels t = [xff; xff; xff; xff].
Proof.
  split.
  - split; [reflexivity|]. split; [discriminate | intros e _; reflexivity].
  - apply (placeholder_texture [("cube.obj"%string, mat4f_identity)] (fresh_object 0 100));
      [reflexivity | discriminate | intros e _; reflexivity].
Defined.

(** C5 fails as stated: a scene without meshes refers to no texture, and
    after setup the texture vector is empty. *)
Lemma no_placeholder_without_model :
  (forall e, In e (@nil (string * mat4f)) ->
             ObjLoader.m_textures (ObjLoader_loadModel (fst e)) = [])
  /\ m_textures (exec (load_scene []) (fresh_object 0 100)) = []
  /\ length (m_textures (exec (load_scene []) (fresh_object 0 100))) <> 1%nat.
Proof. split; [intros e []|]. split; [reflexivity | discriminate]. Qed.



(** Two spheres and no material on a fresh object. *)
Lemma createImplictBuffers_nonempty_witness :
  implMat (m_implObjects (fresh_object 0 100)) = []
  /\ implMat (m_implObjects
                (exec (addImplSphere origin f32_zero 0 ;; addImplSphere origin f32_zero 1 ;;
                       createImplictBuffers) (fresh_object 0 100)))
     = [MaterialObj_default]
  /\ objImpl (m_implObjects
                (exec (addImplSphere origin f32_zero 0 ;; addImplSphere origin f32_zero 1 ;;
                       createImplictBuffers) (fresh_object 0 100)))
     = objImpl (m_implObjects (fresh_object 0 100))
       ++ [mkObjImplicit (vec3_sub origin f32_zero) (vec3_add origin f32_zero) eSphere 0;
           mkObjImplicit (vec3_sub origin f32_zero) (vec3_add origin f32_zero) eSphere 1].
Proof.
  split; [reflexivity|].
  apply (proj2 (proj2 (proj2 (proj2 (proj2
           (createImplictBuffers_nonempty (fresh_object 0 100))))))
         origin f32_zero 0 origin f32_zero 1).
  reflexivity.
Defined.

(** The first mesh loaded into a fresh object. *)
Lemma loadModel_appends_witness :
  (size (m_objModel (fresh_object 0 100)) < Int.UINT32_MOD
   /\ m_objModel (fresh_object 0 100) = []
   /\ objIndex_valid (fresh_object 0 100))
  /\ (exists instance,
        m_objInstance (exec (loadModel "cube.obj" mat4f_identity) (fresh_object 0 100))
        = [instance]
        /\ objIndex instance = size (m_objModel (fresh_object 0 100))
        /\ objIndex instance = 0)
  /\ objIndex_valid (exec (loadModel "cube.obj" mat4f_identity) (fresh_object 0 100))
  /\ objIndex_valid
       (exec (run_ops [OpLoadModel "cube.obj" mat4f_identity; OpRaytrace camera])
             (fresh_object 0 100)).
Proof.
  assert (Hvalid : objIndex_valid (fresh_object 0 100)) by constructor.
  assert (Hsmall : size (m_objModel (fresh_object 0 100)) < Int.UINT32_MOD) by reflexivity.
  pose proof (loadModel_appends "cube.obj" mat4f_identity (fresh_object 0 100)) as H.
  cbv zeta in H. destruct H as ((model & instance & _ & Hi & _ & Hidx & _ & _ & _ & H0) & Hv & Hops).
  split; [split; [exact Hsmall | split; [reflexivity | exact Hvalid]]|].
  split; [|split].
  - exists instance. split; [exact Hi|]. split; [exact (Hidx Hsmall) | exact (H0 eq_refl)].
  - exact (Hv Hvalid).
  - exact (Hops _ _ Hvalid).
Defined.

(** C10 fails as stated: already on an object without models the classes
    released are pipeline, layout, pool, layout, ...: the descriptor pool is
    destroyed before the descriptor-set layout. *)
Lemma destroyResources_pool_before_layout :
  firstn 4 (trace destroyResources (fresh_object 0 100))
  = [ VkDestroyPipeline 0%nat; VkDestroyPipelineLayout 0%nat;
      VkDestroyDescriptorPool 0%nat; VkDestroyDescriptorSetLayout 0%nat ]
  /\ in_teardown_order (released_classes (trace destroyResources (fresh_object 0 100))) = false.
Proof. split; reflexivity. Qed.

(** Two texture files, the second of which cannot be decoded, and the
    no-file case on a registry that has the placeholder. *)
Lemma createTextureImages_files_witness :
  (["wood.png"%string; "missing.png"%string] <> []
   /\ m_textures one_model <> [])
  /\ (exists new,
        Forall2 (@uploaded_from Textured.assets) ["wood.png"%string; "missing.png"%string] new
        /\ m_textures (exec (@createTextureImages Textured.assets
                               ["wood.png"%string; "missing.png"%string])
                            (fresh_object 0 100))
           = m_textures (fresh_object 0 100) ++ new)
  /\ m_textures (exec (@createTextureImages Textured.assets []) one_model)
     = m_textures one_model.
Proof.
  split; [split; discriminate|]. split.
  - apply (proj1 (@createTextureImages_files Textured.assets _ (fresh_object 0 100))).
    discriminate.
  - apply (proj2 (@createTextureImages_files Textured.assets [] one_model));
      [reflexivity | discriminate].
Defined.

(** A textured mesh loaded after the placeholder exists: its textures start
    at index 1. *)
Lemma loadModel_txtOffset_witness :
  (ObjLoader.m_textures (@ObjLoader_loadModel Textured.assets "crate.obj") <> []
   /\ size (m_textures one_model) < Int.UINT32_MOD)
  /\ exists instance new,
       m_objInstance (exec (@loadModel Sample.nvmath Textured.assets "crate.obj" mat4f_identity)
                           one_model)
       = m_objInstance one_model ++ [instance]
       /\ txtOffset instance = size (m_textures one_model)
       /\ Forall2 (@uploaded_from Textured.assets)
            (ObjLoader.m_textures (@ObjLoader_loadModel Textured.assets "crate.obj")) new
       /\ forall i t, nth_error new i = Some t ->
            nth_error (m_textures (exec (@loadModel Sample.nvmath Textured.assets
                                           "crate.obj" mat4f_identity) one_model))
                      (Z.to_nat (txtOffset instance) + i) = Some t.
Proof.
  split; [split; [discriminate | reflexivity]|].
  apply (@loadModel_txtOffset Sample.nvmath Textured.assets "crate.obj" mat4f_identity one_model);
    [discriminate | reflexivity].
Defined.

(** Two meshes loaded into a fresh object. *)
Lemma instances_follow_models_witness :
  (aligned (fresh_object 0 100)
   /\ size (m_objModel (exec (run_ops [OpLoadModel "a.obj" mat4f_identity;
                                       OpLoadModel "b.obj" mat4f_identity])
                             (fresh_object 0 100))) <= Int.UINT32_MOD)
  /\ length (m_objInstance (exec (run_ops [OpLoadModel "a.obj" mat4f_identity;
                                           OpLoadModel "b.obj" mat4f_identity])
                                 (fresh_object 0 100)))
     = length (m_objModel (exec (run_ops [OpLoadModel "a.obj" mat4f_identity;
                                          OpLoadModel "b.obj" mat4f_identity])
                                (fresh_object 0 100)))
  /\ forall k inst,
       nth_error (m_objInstance (exec (run_ops [OpLoadModel "a.obj" mat4f_identity;
                                                OpLoadModel "b.obj" mat4f_identity])
                                      (fresh_object 0 100))) k = Some inst ->
       objIndex inst = Z.of_nat k.
Proof.
  assert (Hal : aligned (fresh_object 0 100)) by reflexivity.
  assert (Hsz : size (m_objModel (exec (run_ops [OpLoadModel "a.obj" mat4f_identity;
                                       OpLoadModel "b.obj" mat4f_identity])
                             (fresh_object 0 100))) <= Int.UINT32_MOD) by discriminate.
  split; [split; assumption|].
  apply (instances_follow_models _ (fresh_object 0 100) Hal Hsz).
Defined.


(** [rasterize] after a mesh is loaded and a tick has run. *)
Lemma rasterize_undefined_iff_witness :
  objIndex_valid (fresh_object 0 100)
  /\ rasterize (exec (run_ops [OpLoadModel "a.obj" mat4f_identity; OpRaytrace camera])
                     (fresh_object 0 100)) <> None.
Proof.
  assert (Hv : objIndex_valid (fresh_object 0 100)) by constructor.
  split; [exact Hv|].
  apply (proj2 (rasterize_undefined_iff (fresh_object 0 100))). exact Hv.
Defined.

(** Five ticks against a budget of 3, with a camera move in between. *)
Lemma dispatched_within_budget_witness :
  (-1 <= frame_of (fresh_object 0 3)
   /\ frame_of (fresh_object 0 3)
      + Z.of_nat (length [camera; camera; camera_nan; camera; camera]) <= Int.INT_MAX)
  /\ Forall (fun f => 0 <= f < m_maxFrames (fresh_object 0 3))
       (all_dispatched (raytrace_ticks [camera; camera; camera_nan; camera; camera]
                                       (fresh_object 0 3)))
  /\ (m_maxFrames (fresh_object 0 3) <= 0 ->
      all_dispatched (raytrace_ticks [camera; camera; camera_nan; camera; camera]
                                     (fresh_object 0 3)) = []).
Proof.
  assert (Hlo : -1 <= frame_of (fresh_object 0 3)) by discriminate.
  assert (Hhi : frame_of (fresh_object 0 3)
      + Z.of_nat (length [camera; camera; camera_nan; camera; camera]) <= Int.INT_MAX)
    by discriminate.
  split; [split; assumption|].
  apply (dispatched_within_budget _ (fresh_object 0 3) Hlo Hhi).
Defined.

(** 150 further ticks after the first, against a budget of 100. *)
Lemma steady_camera_dispatches_witness :
  (settled camera after_first_tick
   /\ -1 <= frame_of after_first_tick
   /\ frame_of after_first_tick + Z.of_nat 150 <= Int.INT_MAX)
  /\ all_dispatched (raytrace_ticks (repeat camera 150%nat) after_first_tick)
     = map Z.of_nat
         (seq (Z.to_nat (frame_of after_first_tick + 1))
              (Nat.min 150 (Z.to_nat (m_maxFrames after_first_tick
                                      - (frame_of after_first_tick + 1))))).
Proof.
  assert (Hset : settled camera after_first_tick).
  { eexists. split; reflexivity. }
  assert (Hlo : -1 <= frame_of after_first_tick) by discriminate.
  assert (Hhi : frame_of after_first_tick + Z.of_nat 150 <= Int.INT_MAX) by discriminate.
  split; [split; [|split]; assumption|].
  apply (steady_camera_dispatches camera 150 after_first_tick Hset Hlo Hhi).
Defined.

(** Four ticks under the sample camera from a fresh object. *)
Lemma repeated_camera_resets_once_witness :
  f32_isnan (getFov camera) = false
  /\ Forall (fun p => resets (snd p) = false)
       (tl (updateFrame_ticks (repeat camera 4%nat) (fresh_object 0 100))).
Proof.
  split; [reflexivity|].
  apply (repeated_camera_resets_once camera 4 (fresh_object 0 100)). reflexivity.
Defined.

(** Three ticks under the camera whose field of view is a NaN. *)
Lemma nan_fov_never_accumulates_witness :
  Forall (fun cam => f32_isnan (getFov cam) = true) [camera_nan; camera_nan; camera_nan]
  /\ Forall (fun p => resets (snd p) = true
                      /\ frame_of (fst p) = 0
                      /\ dispatched_frames (snd p)
                         = (if 0 <? m_maxFrames (fresh_object 0 100) then [0] else []))
       (raytrace_ticks [camera_nan; camera_nan; camera_nan] (fresh_object 0 100)).
Proof.
  assert (H : Forall (fun cam => f32_isnan (getFov cam) = true)
                     [camera_nan; camera_nan; camera_nan])
    by (repeat constructor).
  split; [exact H|].
  apply (nan_fov_never_accumulates _ (fresh_object 0 100) H).
Defined.

(** The scene-description buffer of a scene of three meshes. *)
Lemma createSceneDescriptionBuffer_entries_witness :
  m_objInstance (fresh_object 0 100) = []
  /\ exists b,
       trace createSceneDescriptionBuffer
             (exec (load_scene [("a.obj"%string, mat4f_identity);
                                ("b.obj"%string, mat4f_identity);
                                ("c.obj"%string, mat4f_identity)]) (fresh_object 0 100))
       = [ AllocCreateBuffer b
             (length [("a.obj"%string, mat4f_identity); ("b.obj"%string, mat4f_identity);
                      ("c.obj"%string, mat4f_identity)])
             Vk.BUFFER_USAGE_STORAGE_BUFFER_BIT;
           SubmitAndWait; FinalizeAndReleaseStaging ].
Proof.
  split; [reflexivity|].
  apply (proj2 (createSceneDescriptionBuffer_entries
                  [("a.obj"%string, mat4f_identity); ("b.obj"%string, mat4f_identity);
                   ("c.obj"%string, mat4f_identity)] (fresh_object 0 100)) eq_refl).
Defined.

(** The layout declared after one mesh is loaded. *)
Lemma writes_cover_layout_witness :
  m_descSetLayoutBind one_model = []
  /\ map dstBinding
       (issued_writes (trace updateDescriptorSet (exec createDescriptorSetLayout one_model)))
     = [0; 2; 1; 4; 5; 6; 3; 7]
  /\ NoDup (map dstBinding
       (issued_writes (trace updateDescriptorSet (exec createDescriptorSetLayout one_model)))).
Proof.
  split; [reflexivity|].
  destruct (writes_cover_layout one_model eq_refl) as (_ & Hw & _ & Hn & _).
  split; assumption.
Defined.

(** Two meshes loaded after the layout of a one-mesh registry. *)
Lemma models_after_layout_mismatch_witness :
  (m_descSetLayoutBind one_model = []
   /\ [("a.obj"%string, mat4f_identity); ("b.obj"%string, mat4f_identity)] <> []
   /\ size (m_objModel one_model) + 1 < Int.UINT32_MOD)
  /\ exists w,
       nth_error (issued_writes
                    (trace updateDescriptorSet
                       (exec (createDescriptorSetLayout ;;
                              load_scene [("a.obj"%string, mat4f_identity);
                                          ("b.obj"%string, mat4f_identity)]) one_model))) 2
       = Some w
       /\ dstBinding w = 1
       /\ writeCount w = size (m_objModel one_model) + 1
       /\ size (pInfo w)
          = size (m_objModel one_model)
            + Z.of_nat (length [("a.obj"%string, mat4f_identity);
                                ("b.obj"%string, mat4f_identity)]) + 1
       /\ length_matches w = false.
Proof.
  split; [split; [reflexivity | split; [discriminate | reflexivity]]|].
  apply (models_after_layout_mismatch
           [("a.obj"%string, mat4f_identity); ("b.obj"%string, mat4f_identity)] one_model);
    [reflexivity | discriminate | reflexivity].
Defined.

(** The index count of the sample mesh. *)
Lemma loadModel_uploads_witness :
  size (ObjLoader.m_indices (ObjLoader_loadModel "cube.obj")) < Int.UINT32_MOD
  /\ exists model,
       m_objModel (exec (loadModel "cube.obj" mat4f_identity) (fresh_object 0 100))
       = m_objModel (fresh_object 0 100) ++ [model]
       /\ nbIndices model = size (ObjLoader.m_indices (ObjLoader_loadModel "cube.obj")).
Proof.
  split; [reflexivity|].
  destruct (loadModel_uploads "cube.obj" mat4f_identity (fresh_object 0 100))
    as (model & uv & ui & um & umi & rest & Hm & _ & _ & _ & _ & Hidx & _).
  exists model. split; [exact Hm | apply Hidx; reflexivity].
Defined.

